(** * mc-monitor: the status-ping client and the change detector

    A shallow embedding of [mc-monitor.py]: the VarInt codec, the status
    query over a byte stream, the MOTD normaliser, the SHA-256 fingerprint
    of a status, the poll/notify step, the parser of [host:port] answers
    and the menu pages, with the properties the specification states
    about them and further properties of the code. *)

From Stdlib Require Import ZArith Lia List String Ascii Bool.
From Stdlib Require Import DecimalString Decimal QArith.
From Stdlib Require Import Floats.SpecFloat.
From Equations Require Import Equations.
From stdpp Require Import base option list gmap.
Import ListNotations.

Local Open Scope Z_scope.

(** ** Python values *)

(** A Python [str] is a sequence of code points; [bytes] a sequence of
    values in [0, 255]. *)
Definition str := list Z.
Definition bytes := list Z.

(** The code points of an ASCII literal. *)
Definition U (s : string) : str :=
  map (fun a => Z.of_nat (nat_of_ascii a)) (list_ascii_of_string s).

(** An exception: its class and [str(e)]. *)
Inductive exn : Type :=
| Exception (cls : string) (msg : str).

Definition exn_str (e : exn) : str :=
  match e with Exception _ msg => msg end.

Definition IOError (msg : string) : exn := Exception "OSError" (U msg).
Definition IndexError (msg : string) : exn := Exception "IndexError" (U msg).
Definition AttributeError (msg : string) : exn := Exception "AttributeError" (U msg).
Definition TypeError (msg : string) : exn := Exception "TypeError" (U msg).
Definition ValueError (msg : string) : exn := Exception "ValueError" (U msg).
Definition OverflowError (msg : string) : exn := Exception "OverflowError" (U msg).
Definition KeyError (msg : string) : exn := Exception "KeyError" (U msg).

(** The outcome of a call: a value, or a raised exception. *)
Inductive result (A : Type) : Type :=
| Ok (a : A)
| Raise (e : exn).
Arguments Ok {A} a.
Arguments Raise {A} e.

Global Instance result_ret : MRet result := fun A a => Ok a.
Global Instance result_bind : MBind result := fun A B k r =>
  match r with
  | Ok a => k a
  | Raise e => Raise e
  end.

(** ** The socket

    A connected socket, as one query sees it: the bytes the peer will
    deliver, what [recv] does once they are consumed ([None]: the peer
    closed, [recv] returns [b""]; [Some e]: [recv] raises [e], a timeout
    or a reset), the outcome of each successive [sendall], and the bytes
    sent so far. *)
Record socket : Type := Socket {
  incoming : bytes;
  at_end : option exn;
  send_outcomes : list (option exn);
  sent : bytes
}.

(** A computation on the socket: the outcome and the socket afterwards. *)
Definition io (A : Type) : Type := socket -> result A * socket.

Global Instance io_ret : MRet io := fun A a sock => (Ok a, sock).
Global Instance io_bind : MBind io := fun A B k m sock =>
  match m sock with
  | (Ok a, sock') => k a sock'
  | (Raise e, sock') => (Raise e, sock')
  end.

(** A step that does not touch the socket. *)
Definition lift {A} (r : result A) : io A := fun sock => (r, sock).

Definition set_incoming (sock : socket) (bs : bytes) : socket :=
  Socket bs (at_end sock) (send_outcomes sock) (sent sock).

(** [sock.recv(k)]: at most [k] of the pending bytes. *)
Definition recv (k : Z) : io bytes := fun sock =>
  match incoming sock with
  | [] => match at_end sock with
          | None => (Ok [], sock)
          | Some e => (Raise e, sock)
          end
  | _ => (Ok (take (Z.to_nat k) (incoming sock)),
          set_incoming sock (drop (Z.to_nat k) (incoming sock)))
  end.

(** [sock.sendall(data)]. *)
Definition sendall (data : bytes) : io unit := fun sock =>
  match send_outcomes sock with
  | Some e :: rest => (Raise e, Socket (incoming sock) (at_end sock) rest (sent sock))
  | None :: rest => (Ok tt, Socket (incoming sock) (at_end sock) rest (sent sock ++ data))
  | [] => (Ok tt, Socket (incoming sock) (at_end sock) [] (sent sock ++ data))
  end.

(** ** VarInt codec *)

(** The loop of [_pack_varint], on [v = n & 0xFFFFFFFF], which is not
    negative. *)
Equations? _pack_varint_loop (v : N) : bytes by wf (N.to_nat (N.log2 v)) lt :=
  _pack_varint_loop v with N.eq_dec (N.shiftr v 7) 0%N => {
    | left _ := [Z.of_N (N.land v 0x7F%N)];
    | right _ := Z.of_N (N.lor (N.land v 0x7F%N) 0x80%N) :: _pack_varint_loop (N.shiftr v 7) }.
Proof.
  rewrite N.log2_shiftr.
  assert (7 <= N.log2 v)%N; [|lia].
  destruct (N.le_gt_cases 7 (N.log2 v)) as [|Hlt]; [done|].
  exfalso. apply n. rewrite N.shiftr_div_pow2. apply N.div_small.
  destruct v as [|p]; [done|]. apply N.log2_lt_pow2; [lia|done].
Qed.

Definition _pack_varint (n : Z) : bytes :=
  _pack_varint_loop (Z.to_N (Z.land n 0xFFFFFFFF)).

(** The loop of [_read_varint]: each round takes one byte with
    [sock.recv(1)]. *)
Fixpoint _read_varint_loop (pending : bytes) (at_end : option exn)
    (num num_read : Z) : result Z * bytes :=
  match pending with
  | [] =>
      match at_end with
      | None => (Raise (IOError "Socket closed while reading VarInt"), [])
      | Some e => (Raise e, [])
      end
  | val :: rest =>
      let num := Z.lor num (Z.shiftl (Z.land val 0x7F) (7 * num_read)) in
      let num_read := num_read + 1 in
      if 5 <? num_read then (Raise (IOError "VarInt too big"), rest)
      else if Z.land val 0x80 =? 0 then (Ok num, rest)
      else _read_varint_loop rest at_end num num_read
  end.

Definition _read_varint : io Z := fun sock =>
  let '(r, rest) := _read_varint_loop (incoming sock) (at_end sock) 0 0 in
  (r, set_incoming sock rest).

(** ** Python objects

    The values [json.loads] produces and the program builds from them. A
    [dict] keeps its items in insertion order, with distinct keys. *)
#[warnings="-register-all"]
Inductive pyval : Type :=
| PNone
| PBool (b : bool)
| PInt (z : Z)
| PFloat (f : spec_float)
| PStr (s : str)
| PList (l : list pyval)
| PDict (d : list (str * pyval)).

Definition dict : Type := list (str * pyval).

Section DictFind.
Context {A : Type} (f : pyval -> A) (k : str).

(** The value under key [k], seen through [f]. *)
Fixpoint dict_find (d : dict) : option A :=
  match d with
  | [] => None
  | kv :: d' => if decide (fst kv = k) then Some (f (snd kv)) else dict_find d'
  end.
End DictFind.

(** [d.get(k)] is [dict_get k d], with [None] for Python's [None] of an
    absent key; [d.get(k, dflt)] is [dict_get_or k dflt d]. *)
Definition dict_get (k : str) (d : dict) : option pyval := dict_find id k d.

Definition dict_get_or (k : str) (dflt : pyval) (d : dict) : pyval :=
  default dflt (dict_get k d).

(** [d[k] = v]: the value is replaced in place, a new key goes last. *)
Fixpoint dict_set (k : str) (v : pyval) (d : dict) : dict :=
  match d with
  | [] => [(k, v)]
  | kv :: d' => if decide (fst kv = k) then (k, v) :: d' else kv :: dict_set k v d'
  end.

(** Truth value of an object. *)
Definition truthy (v : pyval) : bool :=
  match v with
  | PNone => false
  | PBool b => b
  | PInt z => negb (z =? 0)
  | PFloat (S754_zero _) => false
  | PFloat _ => true
  | PStr s => negb (bool_decide (s = []))
  | PList l => match l with [] => false | _ => true end
  | PDict d => match d with [] => false | _ => true end
  end.

(** [x or y]. *)
Definition py_or (x y : pyval) : pyval := if truthy x then x else y.

(** The name of the type of an object, for messages. *)
Definition type_name (v : pyval) : string :=
  match v with
  | PNone => "NoneType"
  | PBool _ => "bool"
  | PInt _ => "int"
  | PFloat _ => "float"
  | PStr _ => "str"
  | PList _ => "list"
  | PDict _ => "dict"
  end.

(** [v.get(k, dflt)] on any object: only a [dict] has [get]. *)
Definition py_get (v : pyval) (k : str) (dflt : pyval) : result pyval :=
  match v with
  | PDict d => Ok (dict_get_or k dflt d)
  | _ => Raise (Exception "AttributeError"
                  (U "'" ++ U (type_name v) ++ U "' object has no attribute 'get'"))
  end.

(** [v[k]] on any object, for a string key. *)
Definition py_getitem (v : pyval) (k : str) : result pyval :=
  match v with
  | PDict d => match dict_get k d with
               | Some x => Ok x
               | None => Raise (Exception "KeyError" (U "'" ++ k ++ U "'"))
               end
  | _ => Raise (TypeError "object is not subscriptable with a str key")
  end.

(** Decimal digits of an integer, as [str] writes them. *)
Definition str_of_Z (z : Z) : str := U (NilZero.string_of_int (Z.to_int z)).

(** Library functions the program calls and this development leaves
    abstract: [json.loads] after [bytes.decode("utf-8", errors="replace")],
    [repr] of a float (ASCII text), [repr] of a list or a dict, and [int]
    of a string. *)
Record builtins : Type := Builtins {
  json_loads : bytes -> result pyval;
  float_repr : spec_float -> string;
  py_repr : pyval -> str;
  int_of_str : str -> result Z
}.

(** [int(float)]: truncation toward zero. *)
Definition int_of_float (f : spec_float) : result Z :=
  match f with
  | S754_zero _ => Ok 0
  | S754_infinity _ => Raise (OverflowError "cannot convert float infinity to integer")
  | S754_nan => Raise (ValueError "cannot convert float NaN to integer")
  | S754_finite s m e =>
      let mag := if 0 <=? e then Z.pos m * 2 ^ e else Z.pos m / 2 ^ (- e) in
      Ok (if s then - mag else mag)
  end.

Section Builtins.
Context (py : builtins).

(** [str(v)]. *)
Definition py_str (v : pyval) : str :=
  match v with
  | PNone => U "None"
  | PBool true => U "True"
  | PBool false => U "False"
  | PInt z => str_of_Z z
  | PStr s => s
  | PFloat f => U (float_repr py f)
  | PList _ | PDict _ => py_repr py v
  end.

(** [int(v)]. *)
Definition py_int (v : pyval) : result Z :=
  match v with
  | PInt z => Ok z
  | PBool b => Ok (if b then 1 else 0)
  | PFloat f => int_of_float f
  | PStr s => int_of_str py s
  | PNone | PList _ | PDict _ =>
      Raise (Exception "TypeError"
               (U "int() argument must be a string, a bytes-like object or a real number, not '"
                ++ U (type_name v) ++ U "'"))
  end.

(** ** Status normaliser *)

Fixpoint _flatten_description (desc : pyval) : str :=
  match desc with
  | PNone => []
  | PStr s => s
  | PDict d =>
      let text :=
        match dict_get (U "text") d with
        | Some (PStr t) => [t]
        | _ => []
        end in
      let extra :=
        default []
          (dict_find (fun v => match v with
                               | PList l => map _flatten_description l
                               | _ => []
                               end) (U "extra") d) in
      concat (text ++ extra)
  | PList l => concat (map _flatten_description l)
  | PBool _ | PInt _ | PFloat _ => py_str desc
  end.

(** The marker of a formatting code, the section sign U+00A7. *)
Definition marker : Z := 0xA7.

(** The loop of [_strip_motd_color_codes], on the characters from
    index [i] on. *)
Fixpoint _strip_motd_color_codes (s : str) : str :=
  match s with
  | [] => []
  | c :: rest =>
      if decide (c = marker) then
        match rest with
        | _ :: rest' => _strip_motd_color_codes rest'
        | [] => []
        end
      else c :: _strip_motd_color_codes rest
  end.

(** [str.isspace] of one character. *)
Definition py_isspace (c : Z) : bool :=
  ((0x09 <=? c) && (c <=? 0x0D)) || ((0x1C <=? c) && (c <=? 0x20))
  || (c =? 0x85) || (c =? 0xA0) || (c =? 0x1680)
  || ((0x2000 <=? c) && (c <=? 0x200A))
  || (c =? 0x2028) || (c =? 0x2029) || (c =? 0x202F) || (c =? 0x205F)
  || (c =? 0x3000).

Fixpoint lstrip (s : str) : str :=
  match s with
  | c :: rest => if py_isspace c then lstrip rest else s
  | [] => []
  end.

(** [s.strip()]. *)
Definition py_strip (s : str) : str := rev (lstrip (rev (lstrip s))).

(** The MOTD of a response, as [query_status] derives it from the
    [description] entry. *)
Definition motd_of (description : pyval) : str :=
  let motd_raw := _flatten_description description in
  py_strip (_strip_motd_color_codes motd_raw).

End Builtins.

(** ** The status query *)

(** [s.encode("utf-8")]: lone surrogates are refused. *)
Definition utf8_encode_char (c : Z) : result bytes :=
  if c <? 0x80 then Ok [c]
  else if c <? 0x800 then
    Ok [Z.lor 0xC0 (Z.shiftr c 6); Z.lor 0x80 (Z.land c 0x3F)]
  else if (0xD800 <=? c) && (c <=? 0xDFFF) then
    Raise (Exception "UnicodeEncodeError"
             (U "'utf-8' codec can't encode character: surrogates not allowed"))
  else if c <? 0x10000 then
    Ok [Z.lor 0xE0 (Z.shiftr c 12); Z.lor 0x80 (Z.land (Z.shiftr c 6) 0x3F);
        Z.lor 0x80 (Z.land c 0x3F)]
  else
    Ok [Z.lor 0xF0 (Z.shiftr c 18); Z.lor 0x80 (Z.land (Z.shiftr c 12) 0x3F);
        Z.lor 0x80 (Z.land (Z.shiftr c 6) 0x3F); Z.lor 0x80 (Z.land c 0x3F)].

Fixpoint utf8_encode (s : str) : result bytes :=
  match s with
  | [] => Ok []
  | c :: rest =>
      b ← utf8_encode_char c;
      bs ← utf8_encode rest;
      Ok (b ++ bs)
  end.

Definition len {A} (l : list A) : Z := Z.of_nat (length l).

Definition _pack_mc_string (s : str) : result bytes :=
  b ← utf8_encode s;
  Ok (_pack_varint (len b) ++ b).

(** [struct.pack(">H", port)]. *)
Definition struct_pack_H (port : Z) : result bytes :=
  if (0 <=? port) && (port <=? 65535)
  then Ok [Z.shiftr port 8; Z.land port 0xFF]
  else Raise (Exception "struct.error" (U "'H' format requires 0 <= number <= 65535")).

(** The loop of [_recv_exact]. A round that runs has [len(data) < n] and
    ends with a longer [data], or raises. *)
Equations? _recv_exact_loop (n : Z) (data : bytes) (sock : socket)
    : result bytes * socket by wf (Z.to_nat (n - len data)) lt :=
  _recv_exact_loop n data sock with Z_lt_dec (len data) n => {
    | right _ := (Ok data, sock);
    | left _ with recv (n - len data) sock => {
        | (Raise e, sock') := (Raise e, sock');
        | (Ok [], sock') := (Raise (IOError "Socket closed while reading"), sock');
        | (Ok (c :: chunk), sock') := _recv_exact_loop n (data ++ c :: chunk) sock' } }.
Proof.
  unfold len in *. rewrite length_app. cbn [length]. lia.
Qed.

Definition _recv_exact (n : Z) : io bytes := _recv_exact_loop n [].

(** The two VarInt loops over the response body in [query_status]:
    [rest] is [body[idx:]], [what] the message of the loop's own error. *)
Fixpoint body_varint (what : string) (rest : bytes) (len_body idx acc shift : Z)
    : result (Z * Z * bytes) :=
  match rest with
  | [] => Raise (IndexError "index out of range")
  | b :: rest' =>
      let idx := idx + 1 in
      let acc := Z.lor acc (Z.shiftl (Z.land b 0x7F) shift) in
      if Z.land b 0x80 =? 0 then Ok (acc, idx, rest')
      else
        let shift := shift + 7 in
        if (len_body <=? idx) || (35 <? shift) then Raise (IOError what)
        else body_varint what rest' len_body idx acc shift
  end.

(** [isinstance(v, int)]; a [bool] is an [int]. *)
Definition is_int (v : pyval) : bool :=
  match v with
  | PInt _ | PBool _ => true
  | _ => false
  end.

(** What the network does to one connection attempt: it fails, or gives
    a socket. *)
Definition network : Type := str -> Z -> Q -> result socket.

Section Query.
Context (py : builtins).

(** From the response body to the status, lines 263 to 301. *)
Definition parse_status (body : bytes) : result dict :=
  '(pid, idx, rest) ← body_varint "Bad packet id VarInt" body (len body) 0 0 0;
  '(json_len, idx, rest) ← body_varint "Bad JSON length VarInt" rest (len body) idx 0 0;
  let js := take (Z.to_nat json_len) rest in
  data_json ← json_loads py js;
  description ← py_get data_json (U "description") PNone;
  let motd := motd_of py description in
  players ← py_get data_json (U "players") (PDict []);
  let players := py_or players (PDict []) in
  version ← py_get data_json (U "version") (PDict []);
  let version := py_or version (PDict []) in
  p_online ← py_get players (U "online") (PInt 0);
  p_online ← py_int py p_online;
  p_max ← py_get players (U "max") (PInt 0);
  p_max ← py_int py p_max;
  v_name ← py_get version (U "name") (PStr []);
  let v_name := py_str py v_name in
  v_protocol ← py_get version (U "protocol") (PInt 0);
  v_protocol ← (if is_int v_protocol then py_int py v_protocol else Ok 0);
  Ok [(U "online", PBool true);
      (U "motd", PStr motd);
      (U "players", PDict [(U "online", PInt p_online); (U "max", PInt p_max)]);
      (U "version", PDict [(U "name", PStr v_name); (U "protocol", PInt v_protocol)])].

(** The body of the [with] block, on the connected socket. *)
Definition status_exchange (host : str) (port protocol : Z) : io dict :=
  packet ← lift (h ← _pack_mc_string host;
                 p ← struct_pack_H port;
                 let data := _pack_varint 0x00 ++ _pack_varint protocol
                             ++ h ++ p ++ _pack_varint 1 in
                 Ok (_pack_varint (len data) ++ data));
  _ ← sendall packet;
  let req := _pack_varint 1 ++ [0x00] in
  _ ← sendall req;
  size ← _read_varint;
  body ← _recv_exact size;
  lift (parse_status body).

(** The [try] block of [query_status]. *)
Definition query_status_try (net : network) (host : str) (port protocol : Z)
    (timeout : Q) : result dict :=
  sock ← net host port timeout;
  fst (status_exchange host port protocol sock).

Definition query_status (net : network) (host : str) (port protocol : Z)
    (timeout : Q) : dict :=
  match query_status_try net host port protocol timeout with
  | Ok out => out
  | Raise e => [(U "online", PBool false); (U "error", PStr (exn_str e))]
  end.

End Query.

(** ** SHA-256

    [hashlib.sha256], as FIPS 180-4 defines it, on words kept in
    [0, 2^32). *)
Module SHA256.

Definition w32 (x : Z) : Z := Z.land x 0xFFFFFFFF.
Definition add32 (x y : Z) : Z := w32 (x + y).
Definition rotr (n x : Z) : Z := Z.lor (Z.shiftr x n) (w32 (Z.shiftl x (32 - n))).

Definition Ch (x y z : Z) : Z :=
  Z.lxor (Z.land x y) (Z.land (Z.lxor x 0xFFFFFFFF) z).
Definition Maj (x y z : Z) : Z :=
  Z.lxor (Z.lxor (Z.land x y) (Z.land x z)) (Z.land y z).
Definition Sigma0 (x : Z) : Z := Z.lxor (Z.lxor (rotr 2 x) (rotr 13 x)) (rotr 22 x).
Definition Sigma1 (x : Z) : Z := Z.lxor (Z.lxor (rotr 6 x) (rotr 11 x)) (rotr 25 x).
Definition sigma0 (x : Z) : Z := Z.lxor (Z.lxor (rotr 7 x) (rotr 18 x)) (Z.shiftr x 3).
Definition sigma1 (x : Z) : Z := Z.lxor (Z.lxor (rotr 17 x) (rotr 19 x)) (Z.shiftr x 10).

(** The round constants and the initial hash value: the first 32 bits
    of the fractional parts of the cube roots of the first 64 primes, and
    of the square roots of the first 8. *)
Definition is_prime (n : Z) : bool :=
  forallb (fun d => negb (n mod d =? 0)) (map Z.of_nat (seq 2 (Z.to_nat n - 2))).

Definition first_primes (count bound : nat) : list Z :=
  take count (List.filter is_prime (map Z.of_nat (seq 2 bound))).

(** The integer part of the [k]-th root of [n], for [n] below [2^(40k)]. *)
Definition iroot (k n : Z) : Z :=
  fold_left (fun r b => if (r + 2 ^ b) ^ k <=? n then r + 2 ^ b else r)
            (map Z.of_nat (rev (seq 0 40))) 0.

Definition root_fraction (k p : Z) : Z := iroot k (p * 2 ^ (32 * k)) mod 2 ^ 32.

Definition K : list Z :=
  Eval vm_compute in map (root_fraction 3) (first_primes 64 312).

Definition H0 : list Z :=
  Eval vm_compute in map (root_fraction 2) (first_primes 8 20).

(** The message, a one bit, zeros up to 56 modulo 64 bytes, and the
    bit length on eight bytes. *)
Definition pad (msg : bytes) : bytes :=
  let l := Z.of_nat (length msg) in
  msg ++ [0x80] ++ repeat 0 (Z.to_nat ((55 - l) mod 64))
      ++ map (fun sh => Z.land (Z.shiftr (8 * l) sh) 0xFF) [56; 48; 40; 32; 24; 16; 8; 0].

(** Big-endian words of a byte string. *)
Fixpoint words (bs : bytes) : list Z :=
  match bs with
  | a :: b :: c :: d :: rest =>
      Z.lor (Z.lor (Z.lor (Z.shiftl a 24) (Z.shiftl b 16)) (Z.shiftl c 8)) d
      :: words rest
  | _ => []
  end.

(** The message schedule: [n] words from a window of the last sixteen. *)
Fixpoint schedule (n : nat) (win : list Z) : list Z :=
  match n, win with
  | S n', w0 :: rest =>
      let w1 := nth 1 win 0 in
      let w9 := nth 9 win 0 in
      let w14 := nth 14 win 0 in
      let new := add32 (add32 (add32 (sigma1 w14) w9) (sigma0 w1)) w0 in
      w0 :: schedule n' (rest ++ [new])
  | _, _ => []
  end.

Definition round (st : list Z) (kw : Z * Z) : list Z :=
  match st with
  | [a; b; c; d; e; f; g; h] =>
      let T1 := add32 (add32 (add32 (add32 h (Sigma1 e)) (Ch e f g)) (fst kw)) (snd kw) in
      let T2 := add32 (Sigma0 a) (Maj a b c) in
      [add32 T1 T2; a; b; c; add32 d T1; e; f; g]
  | _ => st
  end.

Definition compress (h : list Z) (block : list Z) : list Z :=
  let st := fold_left round (combine K (schedule 64 block)) h in
  map (fun p => add32 (fst p) (snd p)) (combine h st).

(** Words are gathered sixteen at a time; each full block updates the
    hash value. *)
Definition absorb (acc : list Z * list Z) (w : Z) : list Z * list Z :=
  let block := snd acc ++ [w] in
  if (length block =? 16)%nat then (compress (fst acc) block, [])
  else (fst acc, block).

Definition digest (msg : bytes) : list Z :=
  fst (fold_left absorb (words (pad msg)) (H0, [])).

Definition hex_digit (n : Z) : Z := if n <? 10 then 48 + n else 87 + n.

Definition hex (digits : list Z) (x : Z) : str :=
  map (fun sh => hex_digit (Z.land (Z.shiftr x sh) 0xF)) digits.

(** [hashlib.sha256(msg).hexdigest()]. *)
Definition hexdigest (msg : bytes) : str :=
  concat (map (hex [28; 24; 20; 16; 12; 8; 4; 0]) (digest msg)).

End SHA256.

(** ** JSON text *)

(** One character of a string, as the encoder writes it with
    [ensure_ascii]: a backslash (code 92) escapes the quote (34), the
    backslash and the control characters; what lies outside the range
    from space to tilde becomes [\uXXXX], by surrogate pairs above
    the basic plane. *)
Definition json_escape (c : Z) : str :=
  if c =? 34 then [92; 34]
  else if c =? 92 then [92; 92]
  else if c =? 8 then [92; 98]
  else if c =? 12 then [92; 102]
  else if c =? 10 then [92; 110]
  else if c =? 13 then [92; 114]
  else if c =? 9 then [92; 116]
  else if (0x20 <=? c) && (c <=? 0x7E) then [c]
  else if c <? 0x10000 then [92; 117] ++ SHA256.hex [12; 8; 4; 0] c
  else
    let v := c - 0x10000 in
    [92; 117] ++ SHA256.hex [12; 8; 4; 0] (Z.lor 0xD800 (Z.land (Z.shiftr v 10) 0x3FF))
    ++ [92; 117] ++ SHA256.hex [12; 8; 4; 0] (Z.lor 0xDC00 (Z.land v 0x3FF)).

Definition json_string (s : str) : str :=
  [34] ++ concat (map json_escape s) ++ [34].

(** [sep.join(parts)]. *)
Fixpoint join (sep : str) (parts : list str) : str :=
  match parts with
  | [] => []
  | [p] => p
  | p :: rest => p ++ sep ++ join sep rest
  end.

(** Order of strings: by code points, a prefix first. *)
Fixpoint str_leb (a b : str) : bool :=
  match a, b with
  | [], _ => true
  | _ :: _, [] => false
  | x :: a', y :: b' =>
      if x <? y then true else if y <? x then false else str_leb a' b'
  end.

Section SortItems.
Context {A : Type}.

Fixpoint insert_item (kv : str * A) (l : list (str * A)) : list (str * A) :=
  match l with
  | [] => [kv]
  | kv' :: l' =>
      if str_leb (fst kv) (fst kv') then kv :: l else kv' :: insert_item kv l'
  end.

(** The items of a dict, sorted by key. *)
Definition sort_items (l : list (str * A)) : list (str * A) :=
  fold_right insert_item [] l.
End SortItems.

Section Fingerprint.
Context (py : builtins).

Definition floatstr (f : spec_float) : str :=
  match f with
  | S754_nan => U "NaN"
  | S754_infinity false => U "Infinity"
  | S754_infinity true => U "-Infinity"
  | _ => U (float_repr py f)
  end.

(** [json.dumps(v, sort_keys=True)], with the default separators. *)
Fixpoint json_dumps (v : pyval) : str :=
  match v with
  | PNone => U "null"
  | PBool true => U "true"
  | PBool false => U "false"
  | PInt z => str_of_Z z
  | PFloat f => floatstr f
  | PStr s => json_string s
  | PList l => U "[" ++ join (U ", ") (map json_dumps l) ++ U "]"
  | PDict d =>
      let items := sort_items (map (fun kv => (fst kv, json_dumps (snd kv))) d) in
      U "{"
      ++ join (U ", ") (map (fun kv => json_string (fst kv) ++ U ": " ++ snd kv) items)
      ++ U "}"
  end.

(** The dict [_hash_state] serialises. *)
Definition hash_payload (s : dict) : result dict :=
  let online := dict_get_or (U "online") (PBool false) s in
  let motd := dict_get_or (U "motd") (PStr []) s in
  players_online ←
    py_get (py_or (dict_get_or (U "players") PNone s) (PDict [])) (U "online") (PInt 0);
  players_max ←
    py_get (py_or (dict_get_or (U "players") PNone s) (PDict [])) (U "max") (PInt 0);
  version_name ←
    py_get (py_or (dict_get_or (U "version") PNone s) (PDict [])) (U "name") (PStr []);
  version_protocol ←
    py_get (py_or (dict_get_or (U "version") PNone s) (PDict [])) (U "protocol") (PInt 0);
  Ok [(U "online", online);
      (U "motd", motd);
      (U "players_online", players_online);
      (U "players_max", players_max);
      (U "version_name", version_name);
      (U "version_protocol", version_protocol)].

(** The bytes [_hash_state] feeds to the hash. *)
Definition hash_input (s : dict) : result bytes :=
  payload ← hash_payload s;
  utf8_encode (json_dumps (PDict payload)).

Definition _hash_state (s : dict) : result str :=
  input ← hash_input s;
  Ok (SHA256.hexdigest input).

End Fingerprint.

(** ** The persisted state and the monitor engine *)

Definition DEFAULT_PROTOCOL : Z := 767.

(** An entry of the [servers] list; [None] stands for an absent key. *)
Record server : Type := Server {
  srv_host : option str;
  srv_port : option Z;
  srv_name : option str;
  srv_protocol : option Z
}.

(** An entry of the [last] mapping: [{"hash": ..., "data": ...}]. *)
Record baseline : Type := Baseline {
  bl_hash : str;
  bl_data : dict
}.

(** The state document. [st_last] is the [last] mapping, [None] when the
    key is absent. *)
Record state : Type := State {
  webhook_url : option str;
  interval_sec : Z;
  verbose_status : bool;
  servers : list server;
  st_last : option (gmap str baseline)
}.

(** [state.get("last") or {}]. *)
Definition baselines (st : state) : gmap str baseline := default ∅ (st_last st).

(** [state.setdefault("last", {})[key] = bl]. *)
Definition set_baseline (key : str) (bl : baseline) (st : state) : state :=
  State (webhook_url st) (interval_sec st) (verbose_status st) (servers st)
        (Some (<[key := bl]> (baselines st))).

(** What the program does to the outside, in order. [SaveState] is the
    call [save_state(state)], which replaces the state file by the
    document given. *)
Inductive event : Type :=
| HttpPost (url title description : str) (fields : list (str * str))
| ConsoleLog (line : str)
| ConsolePrint (line : str)
| SaveState (st : state).

(** What [requests.post] does: a response, with its status code and
    text, or an exception. *)
Inductive post_outcome : Type :=
| Response (status_code : Z) (text : str)
| PostRaises (e : exn).

(** The surroundings of one poll: the network, and the webhook. *)
Record world : Type := World {
  net : network;
  discord : post_outcome
}.

Definition send_discord (outcome : post_outcome) (webhook_url : option str)
    (title description : str) (fields : list (str * str)) : list event :=
  match webhook_url with
  | None | Some [] => []
  | Some url =>
      HttpPost url title description fields ::
      match outcome with
      | Response status_code text =>
          if 300 <=? status_code
          then [ConsoleLog (U "[yellow]Discord returned " ++ str_of_Z status_code
                            ++ U ": " ++ take 200 text)]
          else []
      | PostRaises e => [ConsoleLog (U "[yellow]Discord send failed: " ++ exn_str e)]
      end
  end.

Definition _server_key (host : str) (port : Z) : str :=
  host ++ U ":" ++ str_of_Z port.

Section Monitor.
Context (py : builtins).

(** The inner [fmt] of [_format_fields]. *)
Definition fmt (s : option dict) : result str :=
  match s with
  | None | Some [] => Ok (U "(none)")
  | Some s =>
      if negb (truthy (dict_get_or (U "online") (PBool false) s)) then Ok (U "Offline")
      else
        pn ← py_get (dict_get_or (U "players") (PDict []) s) (U "online") (PInt 0);
        pm ← py_get (dict_get_or (U "players") (PDict []) s) (U "max") (PInt 0);
        ver ← py_get (dict_get_or (U "version") (PDict []) s) (U "name") (PStr []);
        let motd := dict_get_or (U "motd") (PStr []) s in
        Ok (U "Online: " ++ py_str py pn ++ U "/" ++ py_str py pm
            ++ U " Version: " ++ py_str py ver ++ U " MOTD: " ++ py_str py motd)
  end.

Definition _format_fields (old : option dict) (new : dict)
    : result (list (str * str)) :=
  previous ← fmt old;
  current ← fmt (Some new);
  Ok [(U "Previous", previous); (U "Current", current)].

(** The line printed on a change. *)
Definition change_line (name host : str) (port : Z) (status : dict) : result str :=
  if truthy (dict_get_or (U "online") (PBool false) status) then
    players ← py_getitem (PDict status) (U "players");
    pn ← py_getitem players (U "online");
    players ← py_getitem (PDict status) (U "players");
    pm ← py_getitem players (U "max");
    version ← py_getitem (PDict status) (U "version");
    ver ← py_getitem version (U "name");
    Ok (U "[green][CHANGE][/green] " ++ name ++ U " " ++ host ++ U ":"
        ++ str_of_Z port ++ U " -> Online " ++ py_str py pn ++ U "/"
        ++ py_str py pm ++ U ", " ++ py_str py ver)
  else
    Ok (U "[red][CHANGE][/red] " ++ name ++ U " " ++ host ++ U ":"
        ++ str_of_Z port ++ U " -> Offline ("
        ++ py_str py (dict_get_or (U "error") (PStr []) status) ++ U ")").

(** One poll of one server: the state afterwards and what was done.
    [name], computed before the test of [host] in the source, is
    only used after it. *)
Definition monitor_once (w : world) (st : state) (srv : server)
    : result (state * list event) :=
  let port := default 25565 (srv_port srv) in
  let protocol := default DEFAULT_PROTOCOL (srv_protocol srv) in
  match srv_host srv with
  | None | Some [] => Ok (st, [])
  | Some host =>
      let name :=
        match srv_name srv with
        | None | Some [] => _server_key host port
        | Some name => name
        end in
      let key := _server_key host port in
      let status := query_status py (net w) host port protocol (6 # 1) in
      now_hash ← _hash_state py status;
      let prev := baselines st !! key in
      let prev_hash := bl_hash <$> prev in
      if decide (prev_hash ≠ Some now_hash) then
        fields ← _format_fields (bl_data <$> prev) status;
        let title := U "[" ++ name ++ U "] Status Changed" in
        let desc := host ++ U ":" ++ str_of_Z port in
        let sent := send_discord (discord w) (webhook_url st) title desc fields in
        line ← change_line name host port status;
        let st' := set_baseline key (Baseline now_hash status) st in
        Ok (st', sent ++ [ConsolePrint line; SaveState st'])
      else
        Ok (st, if verbose_status st
                then [ConsolePrint (U "[purple][OK][/purple] " ++ name
                                    ++ U " checked, no change.")]
                else [])
  end.

(** Polls in sequence, as the passes of [monitor_loop] make them. *)
Fixpoint monitor_run (polls : list (world * server)) (st : state)
    : result (state * list event) :=
  match polls with
  | [] => Ok (st, [])
  | (w, srv) :: rest =>
      '(st1, ev1) ← monitor_once w st srv;
      '(st2, ev2) ← monitor_run rest st1;
      Ok (st2, ev1 ++ ev2)
  end.

End Monitor.

(** ** Vocabulary of the properties *)

(** The continuation flag of a byte. *)
Definition continued (b : Z) : Prop := Z.land b 0x80 <> 0.

(** The [text] of a description object, when it is a string, and its
    [extra] nodes, when they are a list. *)
Definition text_of (d : dict) : str :=
  match dict_get (U "text") d with
  | Some (PStr t) => t
  | _ => []
  end.

Definition extra_of (d : dict) : list pyval :=
  match dict_get (U "extra") d with
  | Some (PList l) => l
  | _ => []
  end.

(** The two shapes of a status. *)
Definition offline_status (error : str) : dict :=
  [(U "online", PBool false); (U "error", PStr error)].

Definition online_status (motd : str) (p_online p_max : Z) (v_name : str)
    (v_protocol : Z) : dict :=
  [(U "online", PBool true);
   (U "motd", PStr motd);
   (U "players", PDict [(U "online", PInt p_online); (U "max", PInt p_max)]);
   (U "version", PDict [(U "name", PStr v_name); (U "protocol", PInt v_protocol)])].

Inductive status_shape : dict -> Prop :=
| shape_offline error : status_shape (offline_status error)
| shape_online motd p_online p_max v_name v_protocol :
    status_shape (online_status motd p_online p_max v_name v_protocol).

(** The entry [inner] of the object under [outer], when there is one. *)
Definition nested_get (outer inner : str) (s : dict) : option pyval :=
  match dict_get outer s with
  | Some (PDict d) => dict_get inner d
  | _ => None
  end.

(** The six canonical fields of a status. *)
Definition canonical_fields (s : dict) : list (option pyval) :=
  [dict_get (U "online") s;
   dict_get (U "motd") s;
   nested_get (U "players") (U "online") s;
   nested_get (U "players") (U "max") s;
   nested_get (U "version") (U "name") s;
   nested_get (U "version") (U "protocol") s].

(** What a status holds under [players] and [version] is an object, or
    is absent or false. *)
Definition object_or_falsy (k : str) (s : dict) : Prop :=
  forall v, dict_get k s = Some v -> truthy v = true -> exists d, v = PDict d.

Definition well_formed (s : dict) : Prop :=
  object_or_falsy (U "players") s /\ object_or_falsy (U "version") s.

Section PyvalInd.
Context (P : pyval -> Prop).
Context (HNone : P PNone) (HBool : forall b, P (PBool b)) (HInt : forall z, P (PInt z))
        (HFloat : forall f, P (PFloat f)) (HStr : forall s, P (PStr s))
        (HList : forall l, Forall P l -> P (PList l))
        (HDict : forall d, Forall (fun kv => P (snd kv)) d -> P (PDict d)).

Fixpoint pyval_nested_ind (v : pyval) : P v :=
  match v with
  | PNone => HNone
  | PBool b => HBool b
  | PInt z => HInt z
  | PFloat f => HFloat f
  | PStr s => HStr s
  | PList l =>
      HList l ((fix go (l : list pyval) : Forall P l :=
                  match l with
                  | [] => List.Forall_nil P
                  | x :: l' => @List.Forall_cons _ P x l' (pyval_nested_ind x) (go l')
                  end) l)
  | PDict d =>
      HDict d ((fix go (d : list (str * pyval)) : Forall (fun kv => P (snd kv)) d :=
                  match d with
                  | [] => List.Forall_nil (fun kv => P (snd kv))
                  | kv :: d' =>
                      @List.Forall_cons _ (fun kv => P (snd kv)) kv d'
                        (pyval_nested_ind (snd kv)) (go d')
                  end) d)
  end.
End PyvalInd.

(** Characters that UTF-8 writes on one or two bytes. *)
Definition low (s : str) : Prop := Forall (fun c => c < 0x800) s.



(** The name a server is shown under. *)
Definition display_name (srv : server) (host : str) : str :=
  match srv_name srv with
  | None | Some [] => _server_key host (default 25565 (srv_port srv))
  | Some name => name
  end.

(** The key of a server in the [last] mapping. *)
Definition key_of (srv : server) (host : str) : str :=
  _server_key host (default 25565 (srv_port srv)).

(** The status a poll of [srv] obtains in the world [w]. *)
Definition polled_status (py : builtins) (w : world) (srv : server) (host : str) : dict :=
  query_status py (net w) host (default 25565 (srv_port srv))
    (default DEFAULT_PROTOCOL (srv_protocol srv)) (6 # 1).

(** What the Unchanged branch does. *)
Definition heartbeat (st : state) (srv : server) (host : str) : list event :=
  if verbose_status st
  then [ConsolePrint (U "[purple][OK][/purple] " ++ display_name srv host
                      ++ U " checked, no change.")]
  else [].



(** ** A worked example

    A response document, its JSON text, and library functions that know
    this one text: what the examples below run on. *)
Definition example_document : pyval :=
  PDict [(U "description", PStr (U "A Server"));
         (U "players", PDict [(U "online", PInt 5); (U "max", PInt 20)]);
         (U "version", PDict [(U "name", PStr (U "1.20.1")); (U "protocol", PInt 763)])].

Definition example_text : bytes :=
  U "{" ++ json_string (U "description") ++ U ": " ++ json_string (U "A Server")
  ++ U ", " ++ json_string (U "players") ++ U ": {"
  ++ json_string (U "online") ++ U ": 5, " ++ json_string (U "max") ++ U ": 20}, "
  ++ json_string (U "version") ++ U ": {" ++ json_string (U "name") ++ U ": "
  ++ json_string (U "1.20.1") ++ U ", " ++ json_string (U "protocol") ++ U ": 763}}".

Definition example_builtins : builtins :=
  Builtins
    (fun js => if decide (js = example_text) then Ok example_document
               else Raise (Exception "JSONDecodeError" (U "Expecting value")))
    (fun _ => "0.0"%string)
    (fun _ => U "[]")
    (fun _ => Raise (ValueError "invalid literal for int() with base 10")).

(** The response packet that carries [example_text]. *)
Definition example_packet : bytes :=
  let body := _pack_varint 0 ++ _pack_varint (len example_text) ++ example_text in
  _pack_varint (len body) ++ body.

(** A server, a state that lists it and has a webhook but no baseline
    yet, a world where the server answers with [example_packet], and
    one where the connection is refused. *)
Definition example_server : server :=
  Server (Some (U "mc.example.org")) (Some 25565) None (Some 767).

Definition example_state : state :=
  State (Some (U "https://discord.example/api/webhooks/1")) 30 false
        [example_server] (Some ∅).

Definition answering_world : world :=
  World (fun _ _ _ => Ok (Socket example_packet None [] [])) (Response 204 []).

Definition refusing_world : world :=
  World (fun _ _ _ => Raise (Exception "ConnectionRefusedError"
                               (U "[Errno 111] Connection refused")))
        (Response 204 []).


(** ** Vocabulary of the further properties *)

(** A response as the server frames it: the body holds the packet id,
    the length of the JSON text, the text, and possibly more; the packet
    is the body behind its length. *)
Definition response_body (pid : Z) (js trailing : bytes) : bytes :=
  _pack_varint pid ++ _pack_varint (len js) ++ js ++ trailing.

Definition response_packet (body : bytes) : bytes :=
  _pack_varint (len body) ++ body.

(** What a query writes: the handshake packet, for the UTF-8 bytes [h]
    of the host, then the status request. *)
Definition handshake (h : bytes) (port protocol : Z) : bytes :=
  let data := [0] ++ _pack_varint protocol ++ _pack_varint (len h) ++ h
              ++ [Z.shiftr port 8; Z.land port 0xFF] ++ [1] in
  _pack_varint (len data) ++ data.

Definition status_request : bytes := [1; 0].

(** The status built from the parsed document, lines 285 to 301 of
    [query_status]. *)
Definition status_of_document (py : builtins) (data_json : pyval) : result dict :=
  description ← py_get data_json (U "description") PNone;
  let motd := motd_of py description in
  players ← py_get data_json (U "players") (PDict []);
  let players := py_or players (PDict []) in
  version ← py_get data_json (U "version") (PDict []);
  let version := py_or version (PDict []) in
  p_online ← py_get players (U "online") (PInt 0);
  p_online ← py_int py p_online;
  p_max ← py_get players (U "max") (PInt 0);
  p_max ← py_int py p_max;
  v_name ← py_get version (U "name") (PStr []);
  let v_name := py_str py v_name in
  v_protocol ← py_get version (U "protocol") (PInt 0);
  v_protocol ← (if is_int v_protocol then py_int py v_protocol else Ok 0);
  Ok [(U "online", PBool true);
      (U "motd", PStr motd);
      (U "players", PDict [(U "online", PInt p_online); (U "max", PInt p_max)]);
      (U "version", PDict [(U "name", PStr v_name); (U "protocol", PInt v_protocol)])].

(** The version name and the version protocol a status gets from what
    the document holds there: [str] of the name, and the protocol when
    it is an [int]. *)
Definition name_field (py : builtins) (v : option pyval) : str :=
  match v with
  | Some v => py_str py v
  | None => []
  end.

Definition protocol_field (v : option pyval) : Z :=
  match v with
  | Some (PInt z) => z
  | Some (PBool b) => if b then 1 else 0
  | _ => 0
  end.

(** A lower-case hexadecimal digit. *)
Definition lower_hex (c : Z) : Prop := 48 <= c <= 57 \/ 97 <= c <= 102.

(** The documents and the posts among the events of a run, in order. *)
Definition saves (evs : list event) : list state :=
  omap (fun e => match e with SaveState st => Some st | _ => None end) evs.

Definition posts (evs : list event) : list event :=
  List.filter (fun e => match e with HttpPost _ _ _ _ => true | _ => false end) evs.

(** The state file after the events, when it held [initial] before. *)
Definition file_after (initial : state) (evs : list event) : state :=
  default initial (last (saves evs)).

(** Every stored fingerprint is the fingerprint of the status stored
    with it. *)
Definition fingerprinted (py : builtins) (st : state) : Prop :=
  forall key bl, baselines st !! key = Some bl ->
                 _hash_state py (bl_data bl) = Ok (bl_hash bl).

(** ** Input helpers *)

(** [s.find(c)] for a one-character [c]: the index of its first
    occurrence, [None] for -1. *)
Fixpoint find_char (c : Z) (s : str) : option nat :=
  match s with
  | [] => None
  | x :: rest => if decide (x = c) then Some 0%nat else S <$> find_char c rest
  end.

(** [s.count(c)] for a one-character [c]. *)
Definition count_char (c : Z) (s : str) : nat :=
  length (List.filter (Z.eqb c) s).

(** [s.split(c, 1)] of a text that holds [c]: what stands before its
    first occurrence, and what stands after it. *)
Fixpoint split_once (c : Z) (s : str) : str * str :=
  match s with
  | [] => ([], [])
  | x :: rest =>
      if decide (x = c) then ([], rest)
      else let '(before, after) := split_once c rest in (x :: before, after)
  end.

(** [try: port = int(p)  except Exception: port = default_port]. *)
Definition port_of (py : builtins) (p : str) (default_port : Z) : Z :=
  match int_of_str py p with
  | Ok port => port
  | Raise _ => default_port
  end.

(** [parse_host_port]; [None] stands for the argument [None]. The
    characters 91, 93 and 58 are the two brackets and the colon. *)
Definition parse_host_port (py : builtins) (s : option str) (default_port : Z)
    : str * Z :=
  let s := py_strip (default [] s) in
  match s with
  | [] => ([], default_port)
  | first :: _ =>
      if decide (first = 91) then
        match find_char 93 s with
        | Some end_ =>
            let host := take (end_ - 1) (drop 1 s) in
            let rest := drop (S end_) s in
            match rest with
            | c :: p =>
                if decide (c = 58) then (host, port_of py p default_port)
                else (host, default_port)
            | [] => (host, default_port)
            end
        | None => (s, default_port)
        end
      else if decide (count_char 58 s = 1%nat) then
        let '(host, p) := split_once 58 s in
        (host, port_of py p default_port)
      else (s, default_port)
  end.

(** A text without white space at its two ends. *)
Definition trimmed (s : str) : Prop :=
  (forall c, head s = Some c -> py_isspace c = false)
  /\ (forall c, last s = Some c -> py_isspace c = false).

(** A stand-in for [int] that reads unsigned decimal digits. *)
Fixpoint digits_value (acc : Z) (s : str) : option Z :=
  match s with
  | [] => Some acc
  | c :: rest =>
      if decide (48 <= c <= 57) then digits_value (10 * acc + (c - 48)) rest
      else None
  end.

Definition decimal (s : str) : result Z :=
  match s, digits_value 0 s with
  | _ :: _, Some v => Ok v
  | _, _ => Raise (ValueError "invalid literal for int() with base 10")
  end.

Definition decimal_builtins : builtins :=
  Builtins (json_loads example_builtins) (float_repr example_builtins)
           (py_repr example_builtins) decimal.

(** One round of [monitor_loop]: the listed servers polled in order,
    in the world [w]. *)
Definition round (w : world) (srvs : list server) : list (world * server) :=
  map (pair w) srvs.

(** The key of a server that has a host. *)
Definition polled_key (srv : server) : option str :=
  match srv_host srv with
  | Some (c :: host) => Some (key_of srv (c :: host))
  | _ => None
  end.

(** ** The menu pages

    What the user types at a [console.input] is an argument of the page;
    what the page shows and saves is a list of [ui] steps, in order. A
    page that raises gives the exception alone: it raises before it
    changes the state. A name that the program stores as [None] is
    written as an absent name; the program reads names with [.get] and
    [or] only. *)

Inductive ui : Type :=
| UiHeader
| UiInput (prompt : str)
| UiPrint (text : str)
| UiTable (title : str) (rows : list (list str))
| UiSave (st : state).

Definition ui_saves (steps : list ui) : list state :=
  omap (fun e => match e with UiSave st => Some st | _ => None end) steps.

Definition set_servers (srvs : list server) (st : state) : state :=
  State (webhook_url st) (interval_sec st) (verbose_status st) srvs (st_last st).

(** [last = state.get("last") or {}; last.pop(key, None)]. *)
Definition forget (key : str) (st : state) : state :=
  State (webhook_url st) (interval_sec st) (verbose_status st) (servers st)
        (delete key <$> st_last st).

(** [x or None] for a text. *)
Definition or_none (s : str) : option str :=
  match s with
  | [] => None
  | _ => Some s
  end.

Section Menu.
Context (py : builtins).

(** A row of the table of [list_servers]; [s["host"]] raises when the
    entry has no host. *)
Definition server_row (i : nat) (s : server) : result (list str) :=
  match srv_host s with
  | None => Raise (Exception "KeyError" (U "'host'"))
  | Some host =>
      Ok [str_of_Z (Z.of_nat i);
          display_name s host;
          _server_key host (default 25565 (srv_port s));
          str_of_Z (default DEFAULT_PROTOCOL (srv_protocol s))]
  end.

Fixpoint server_rows (i : nat) (srvs : list server) : result (list (list str)) :=
  match srvs with
  | [] => Ok []
  | s :: rest =>
      row ← server_row i s;
      rows ← server_rows (S i) rest;
      Ok (row :: rows)
  end.

Definition list_servers (st : state) : result (list ui) :=
  match servers st with
  | [] => Ok [UiHeader; UiPrint (U "[yellow]No servers configured yet.")]
  | srvs =>
      rows ← server_rows 0 srvs;
      Ok [UiHeader; UiTable (U "Configured Servers") rows]
  end.

Definition add_server_flow (st : state) (host_typed name_typed proto_typed : str)
    : state * list ui :=
  let host_in := py_strip host_typed in
  let asked := [UiHeader; UiInput (U "Host (or host:port / [IPv6]:port): ")] in
  let '(host, port) := parse_host_port py (Some host_in) 25565 in
  match host with
  | [] => (st, asked ++ [UiPrint (U "[yellow]Host is required.")])
  | _ =>
      let name := py_strip name_typed in
      let proto_s := match py_strip proto_typed with
                     | [] => str_of_Z DEFAULT_PROTOCOL
                     | typed => typed
                     end in
      let protocol := match int_of_str py proto_s with
                      | Ok protocol => protocol
                      | Raise _ => DEFAULT_PROTOCOL
                      end in
      let st' := set_servers
                   (servers st ++ [Server (Some host) (Some port) (or_none name)
                                          (Some protocol)]) st in
      (st', asked
            ++ [UiInput (U "Display name (optional): ");
                UiInput (U "Protocol [" ++ str_of_Z DEFAULT_PROTOCOL ++ U "]: ");
                UiSave st';
                UiPrint (U "[green]Added " ++ host ++ U ":" ++ str_of_Z port ++ U " ("
                         ++ match name with [] => U "no name" | _ => name end
                         ++ U ")")])
  end.

Definition remove_server_flow (st : state) (index_typed : str)
    : result (state * list ui) :=
  match servers st with
  | [] => Ok (st, [UiHeader; UiPrint (U "[yellow]No servers to remove.")])
  | srvs =>
      shown ← list_servers st;
      let s := py_strip index_typed in
      let asked := UiHeader :: shown ++ [UiInput (U "Index to remove: ")] in
      match int_of_str py s with
      | Ok i =>
          if decide (0 <= i < Z.of_nat (length srvs)) then
            match srvs !! Z.to_nat i with
            | Some rem =>
                let st1 := set_servers (delete (Z.to_nat i) srvs) st in
                let st2 := forget (_server_key (default (U "?") (srv_host rem))
                                               (default 25565 (srv_port rem))) st1 in
                Ok (st2, asked ++ [UiSave st1; UiSave st2; UiPrint (U "[green]Removed.")])
            | None => Ok (st, asked ++ [UiPrint (U "[yellow]Invalid index.")])
            end
          else Ok (st, asked ++ [UiPrint (U "[yellow]Index out of range.")])
      | Raise _ => Ok (st, asked ++ [UiPrint (U "[yellow]Invalid index.")])
      end
  end.

Definition set_webhook_flow (st : state) (typed : str) : state * list ui :=
  let cur := match webhook_url st with
             | None | Some [] => U "(not set)"
             | Some url => url
             end in
  let asked := [UiHeader; UiTable (U "Discord Webhook") [[U "Current"; cur]];
                UiInput (U "Paste Discord webhook (or blank to keep): ")] in
  match py_strip typed with
  | [] => (st, asked)
  | new =>
      let st' := State (Some new) (interval_sec st) (verbose_status st) (servers st)
                       (st_last st) in
      (st', asked ++ [UiSave st'; UiPrint (U "[green]Webhook saved.")])
  end.

Definition set_interval_flow (st : state) (typed : str) : state * list ui :=
  let cur := interval_sec st in
  let asked := [UiHeader;
                UiInput (U "Check interval seconds [" ++ str_of_Z cur ++ U "]: ")] in
  match py_strip typed with
  | [] => (st, asked)
  | s =>
      match int_of_str py s with
      | Ok v =>
          if decide (v < 1)
          then (st, asked ++ [UiPrint (U "[yellow]Enter a positive integer.")])
          else
            let st' := State (webhook_url st) v (verbose_status st) (servers st)
                             (st_last st) in
            (st', asked ++ [UiSave st'; UiPrint (U "[green]Interval updated.")])
      | Raise _ => (st, asked ++ [UiPrint (U "[yellow]Enter a positive integer.")])
      end
  end.

Definition toggle_verbose_flow (st : state) : state * list ui :=
  let st' := State (webhook_url st) (interval_sec st) (negb (verbose_status st))
                   (servers st) (st_last st) in
  (st', [UiHeader; UiSave st';
         UiPrint (U "[green]Verbose heartbeat is now "
                  ++ (if verbose_status st' then U "ON" else U "OFF") ++ U ".")]).

(** [edit_server_flow]; [isdigit] is [str.isdigit]. *)
Definition edit_server_flow (isdigit : str -> bool) (st : state)
    (index_typed host_typed name_typed proto_typed : str)
    : result (state * list ui) :=
  match servers st with
  | [] => Ok (st, [UiHeader; UiPrint (U "[yellow]No servers to edit.")])
  | srvs =>
      shown ← list_servers st;
      let s := py_strip index_typed in
      let asked := UiHeader :: shown ++ [UiInput (U "Index to edit: ")] in
      if negb (isdigit s)
      then Ok (st, asked ++ [UiPrint (U "[yellow]Enter a valid index.")])
      else
        i ← int_of_str py s;
        if decide (0 <= i < Z.of_nat (length srvs)) then
          srv ← match srvs !! Z.to_nat i with
                | Some srv => Ok srv
                | None => Raise (Exception "IndexError" (U "list index out of range"))
                end;
          host ← match srv_host srv with
                 | Some host => Ok host
                 | None => Raise (Exception "KeyError" (U "'host'"))
                 end;
          let port := default 25565 (srv_port srv) in
          let host_in := py_strip host_typed in
          let srv1 := match host_in with
                      | [] => srv
                      | _ =>
                          let '(h, p) := parse_host_port py (Some host_in) port in
                          Server (Some h) (Some p) (srv_name srv) (srv_protocol srv)
                      end in
          let nm := py_strip name_typed in
          let srv2 := Server (srv_host srv1) (srv_port srv1) (or_none nm)
                             (srv_protocol srv1) in
          let proto_s := py_strip proto_typed in
          let srv3 := match proto_s with
                      | [] => srv2
                      | _ =>
                          match int_of_str py proto_s with
                          | Ok protocol =>
                              Server (srv_host srv2) (srv_port srv2) (srv_name srv2)
                                     (Some protocol)
                          | Raise _ => srv2
                          end
                      end in
          let st' := set_servers (<[Z.to_nat i := srv3]> srvs) st in
          Ok (st',
              asked
              ++ [UiPrint (U "Editing [" ++ str_of_Z i ++ U "] " ++ display_name srv host);
                  UiInput (U "Host (or host:port) [" ++ _server_key host port ++ U "]: ");
                  UiInput (U "Display name [" ++ default [] (srv_name srv1) ++ U "]: ");
                  UiInput (U "Protocol ["
                           ++ str_of_Z (default DEFAULT_PROTOCOL (srv_protocol srv2))
                           ++ U "]: ");
                  UiSave st';
                  UiPrint (U "[green]Server updated.")])
        else Ok (st, asked ++ [UiPrint (U "[yellow]Index out of range.")])
  end.

End Menu.

(** One step of the program on its state: a menu page that returns, or
    a poll of a listed server that returns. *)
Inductive step (py : builtins) (isdigit : str -> bool) : state -> state -> Prop :=
| step_add st a b c :
    step py isdigit st (fst (add_server_flow py st a b c))
| step_edit st a b c d st' shown :
    edit_server_flow py isdigit st a b c d = Ok (st', shown) ->
    step py isdigit st st'
| step_remove st a st' shown :
    remove_server_flow py st a = Ok (st', shown) ->
    step py isdigit st st'
| step_webhook st a :
    step py isdigit st (fst (set_webhook_flow st a))
| step_interval st a :
    step py isdigit st (fst (set_interval_flow py st a))
| step_toggle st :
    step py isdigit st (fst (toggle_verbose_flow st))
| step_poll st w srv st' evs :
    srv ∈ servers st ->
    monitor_once py w st srv = Ok (st', evs) ->
    step py isdigit st st'.


(* ================================================================= *)
(** * Properties *)

(** ** SHA-256 and the JSON text: known values *)

Example sha256_constants :
  length SHA256.K = 64%nat /\ head SHA256.K = Some 0x428a2f98
  /\ last SHA256.K = Some 0xc67178f2
  /\ head SHA256.H0 = Some 0x6a09e667 /\ last SHA256.H0 = Some 0x5be0cd19.
Proof. repeat split. Qed.

Example sha256_abc :
  SHA256.hexdigest (U "abc")
  = U "ba7816bf8f01cfea414140de5dae2223b00361a396177a9cb410ff61f20015ad".
Proof. vm_compute. reflexivity. Qed.

Example sha256_empty :
  SHA256.hexdigest []
  = U "e3b0c44298fc1c149afbf4c8996fb92427ae41e4649b934ca495991b7852b855".
Proof. vm_compute. reflexivity. Qed.

Example sha256_two_blocks :
  SHA256.hexdigest (U "abcdbcdecdefdefgefghfghighijhijkijkljklmklmnlmnomnopnopq")
  = U "248d6a61d20638b8e5c026930c3e6039a33ce45964ff2167f6ecedd419db06c1".
Proof. vm_compute. reflexivity. Qed.

Example hash_state_offline :
  _hash_state example_builtins (offline_status (U "timed out"))
  = Ok (U "dd928aa4c596ba12bc38359efc0d524affc62c8b248a46ec409d3e29dec06233").
Proof. vm_compute. reflexivity. Qed.

(** ** The VarInt codec *)

Example _pack_varint_300 : _pack_varint 300 = [172; 2].
Proof. reflexivity. Qed.

Section VarInt.

Lemma testbit_127 (i : Z) : 0 <= i -> Z.testbit 127 i = (i <? 7).
Proof. intros Hi. change 127 with (Z.ones 7). apply Z.testbit_ones_nonneg; lia. Qed.

Lemma testbit_128 (i : Z) : 0 <= i -> Z.testbit 128 i = (i =? 7).
Proof.
  intros Hi. change 128 with (2 ^ 7). rewrite Z.pow2_bits_eqb by lia.
  apply Z.eqb_sym.
Qed.

Lemma flagged_low (w : Z) :
  Z.land (Z.lor (Z.land w 127) 128) 127 = Z.land w 127.
Proof.
  apply Z.bits_inj'; intros i Hi.
  rewrite !Z.land_spec, Z.lor_spec, Z.land_spec, testbit_127, testbit_128 by lia.
  destruct (Z.ltb_spec i 7), (Z.eqb_spec i 7); try lia;
    rewrite ?andb_true_r, ?andb_false_r, ?orb_false_r; reflexivity.
Qed.

Lemma flagged_high (w : Z) :
  Z.land (Z.lor (Z.land w 127) 128) 128 = 128.
Proof.
  apply Z.bits_inj'; intros i Hi.
  rewrite !Z.land_spec, Z.lor_spec, Z.land_spec, testbit_127, testbit_128 by lia.
  destruct (Z.ltb_spec i 7), (Z.eqb_spec i 7); try lia;
    rewrite ?andb_true_r, ?andb_false_r, ?orb_false_r, ?orb_true_r; reflexivity.
Qed.

Lemma unflagged_high (w : Z) : Z.land (Z.land w 127) 128 = 0.
Proof.
  apply Z.bits_inj'; intros i Hi.
  rewrite !Z.land_spec, testbit_127, testbit_128, Z.bits_0 by lia.
  destruct (Z.ltb_spec i 7), (Z.eqb_spec i 7); try lia;
    rewrite ?andb_true_r, ?andb_false_r; reflexivity.
Qed.

(** Seven low bits and the rest, shifted into place, give the value. *)
Lemma lor_groups (w s : Z) :
  0 <= s ->
  Z.lor (Z.shiftl (Z.land w 127) s) (Z.shiftl (Z.shiftr w 7) (s + 7)) = Z.shiftl w s.
Proof.
  intros Hs. apply Z.bits_inj'; intros i Hi.
  rewrite Z.lor_spec, !Z.shiftl_spec by lia.
  destruct (Z.ltb_spec i s) as [Hlt|Hge].
  - rewrite !Z.testbit_neg_r by lia. reflexivity.
  - rewrite Z.land_spec, testbit_127 by lia.
    destruct (Z.ltb_spec (i - s) 7).
    + rewrite (Z.testbit_neg_r _ (i - (s + 7))) by lia.
      now rewrite andb_true_r, orb_false_r.
    + rewrite Z.shiftr_spec by lia. rewrite andb_false_r. cbn.
      f_equal. lia.
Qed.

Lemma small_shiftr (v : N) : N.shiftr v 7 = 0%N -> (v < 128)%N.
Proof.
  rewrite N.shiftr_div_pow2. intros H.
  destruct (N.lt_ge_cases v 128) as [|Hge]; [done|].
  assert (1 <= v / 2 ^ 7)%N; [|lia].
  change 1%N with (128 / 2 ^ 7)%N. apply N.Div0.div_le_mono. exact Hge.
Qed.

(** One round of the packing loop. *)
Lemma pack_loop_unfold (v : N) :
  _pack_varint_loop v
  = if N.eqb (N.shiftr v 7) 0
    then [Z.of_N (N.land v 127)]
    else Z.of_N (N.lor (N.land v 127) 128) :: _pack_varint_loop (N.shiftr v 7).
Proof.
  funelim (_pack_varint_loop v).
  - destruct (N.eqb_spec (N.shiftr v 7) 0); [reflexivity|done].
  - destruct (N.eqb_spec (N.shiftr v 7) 0); [done|reflexivity].
Qed.

(** Reading what the packing loop wrote, from any accumulator state
    that leaves room for the groups of [v]. *)
Lemma read_pack_loop (v : N) :
  forall (rest : bytes) (e : option exn) (num k : Z),
    0 <= k <= 4 ->
    Z.of_N v < 2 ^ (7 * (5 - k)) ->
    _read_varint_loop (_pack_varint_loop v ++ rest) e num k
    = (Ok (Z.lor num (Z.shiftl (Z.of_N v) (7 * k))), rest).
Proof.
  induction v as [v IH] using (well_founded_induction N.lt_wf_0).
  intros rest e num k Hk Hv.
  rewrite pack_loop_unfold.
  destruct (N.eqb_spec (N.shiftr v 7) 0) as [Hz|Hnz].
  - cbn [app _read_varint_loop].
    destruct (Z.ltb_spec 5 (k + 1)); [lia|].
    rewrite N2Z.inj_land. change (Z.of_N 127) with 127.
    rewrite unflagged_high. cbn [Z.eqb].
    rewrite <- Z.land_assoc. change (Z.land 127 127) with 127.
    apply small_shiftr in Hz.
    replace (Z.land (Z.of_N v) 127) with (Z.of_N v); [reflexivity|].
    change 127 with (Z.ones 7). rewrite Z.land_ones by lia.
    symmetry. apply Z.mod_small. lia.
  - cbn [app _read_varint_loop].
    destruct (Z.ltb_spec 5 (k + 1)); [lia|].
    rewrite N2Z.inj_lor, N2Z.inj_land.
    change (Z.of_N 127) with 127. change (Z.of_N 128) with 128.
    rewrite flagged_high, flagged_low. cbn [Z.eqb].
    assert (Hlt : (N.shiftr v 7 < v)%N).
    { rewrite N.shiftr_div_pow2. apply N.div_lt; [|done].
      destruct v; [done|lia]. }
    assert (Hsh : Z.of_N (N.shiftr v 7) = Z.shiftr (Z.of_N v) 7).
    { apply N2Z.inj_shiftr. }
    assert (Hk3 : k <= 3).
    { destruct (Z.le_gt_cases k 3) as [|Hk4]; [done|].
      exfalso. apply Hnz. rewrite N.shiftr_div_pow2. apply N.div_small.
      replace k with 4 in Hv by lia. cbn in Hv. lia. }
    rewrite IH; [|exact Hlt|lia|].
    + f_equal. f_equal. rewrite <- Z.lor_assoc. f_equal.
      rewrite Hsh. replace (7 * (k + 1)) with (7 * k + 7) by lia.
      apply lor_groups. lia.
    + rewrite Hsh, Z.shiftr_div_pow2 by lia.
      apply Z.div_lt_upper_bound; [lia|].
      rewrite <- Z.pow_add_r by lia.
      replace (7 + 7 * (5 - (k + 1))) with (7 * (5 - k)) by lia. exact Hv.
Qed.

(** The loop fails on a closed stream whose bytes all carry the
    continuation flag, and on any stream once it has taken six. *)
Lemma read_loop_flagged (pending : bytes) :
  forall (num k : Z),
    0 <= k <= 5 ->
    Forall continued (take (Z.to_nat (6 - k)) pending) ->
    fst (_read_varint_loop pending None num k)
    = Raise (IOError (if decide (6 - k <= Z.of_nat (length pending))
                      then "VarInt too big"
                      else "Socket closed while reading VarInt")).
Proof.
  induction pending as [|val rest IH]; intros num k Hk Hall.
  - cbn. destruct (decide _) as [Hd|Hd]; [cbn in Hd; lia|reflexivity].
  - cbn [_read_varint_loop].
    replace (Z.to_nat (6 - k)) with (S (Z.to_nat (5 - k))) in Hall by lia.
    cbn [take] in Hall. apply Forall_cons in Hall as [Hval Hall].
    destruct (Z.ltb_spec 5 (k + 1)) as [Hbig|Hsmall].
    + cbn [fst]. destruct (decide _) as [Hd|Hd]; [reflexivity|].
      cbn [length] in Hd. lia.
    + destruct (Z.eqb_spec (Z.land val 128) 0) as [Hz|_]; [now destruct Hval|].
      rewrite IH; [|lia|].
      * cbn [length]. repeat destruct (decide _); try reflexivity; lia.
      * replace (6 - (k + 1)) with (5 - k) by lia. exact Hall.
Qed.

End VarInt.

(** C5. VarInt round trip: for every [n] in [0, 2^31 - 1], [_read_varint]
    on a stream that starts with [_pack_varint n] returns [n] and leaves
    the bytes after it. *)
Theorem varint_roundtrip (n : Z) (sock : socket) (rest : bytes) :
  0 <= n <= 2 ^ 31 - 1 ->
  incoming sock = _pack_varint n ++ rest ->
  _read_varint sock = (Ok n, set_incoming sock rest).
Proof.
  intros Hn Hin. unfold _read_varint, _pack_varint in *. rewrite Hin.
  assert (Hmask : Z.land n 0xFFFFFFFF = n).
  { change 0xFFFFFFFF with (Z.ones 32). rewrite Z.land_ones by lia.
    apply Z.mod_small. lia. }
  rewrite Hmask in *.
  rewrite read_pack_loop; [|lia|rewrite Z2N.id by lia; cbn; lia].
  rewrite Z2N.id by lia. cbn [Z.mul]. rewrite Z.shiftl_0_r.
  reflexivity.
Qed.

Lemma varint_roundtrip_witness :
  _read_varint (Socket (_pack_varint 25565 ++ [7; 9]) None [] [])
  = (Ok 25565, Socket [7; 9] None [] []).
Proof.
  apply (varint_roundtrip 25565 (Socket (_pack_varint 25565 ++ [7; 9]) None [] []) [7; 9]).
  - lia.
  - reflexivity.
Defined.

(** C6. VarInt decoding fails with an [IOError]: on every stream whose
    first six bytes all carry the continuation flag ("VarInt too big"),
    and on every stream that is closed before a byte without the flag
    was read; there the message depends on whether six bytes arrived. *)
Theorem read_varint_rejects (sock : socket) :
  ((6 <= length (incoming sock))%nat /\ Forall continued (take 6 (incoming sock)))
  \/ (Forall continued (incoming sock) /\ at_end sock = None) ->
  fst (_read_varint sock)
  = Raise (IOError (if decide (6 <= length (incoming sock))%nat
                    then "VarInt too big"
                    else "Socket closed while reading VarInt")).
Proof.
  intros H. unfold _read_varint.
  destruct (_read_varint_loop (incoming sock) (at_end sock) 0 0) as [r rest] eqn:E.
  cbn [fst]. change r with (fst (r, rest)). rewrite <- E. clear E.
  destruct H as [[Hlen Hall]|[Hall Hend]].
  - destruct (decide _) as [_|Hd]; [|lia].
    destruct (incoming sock) as [|b1 [|b2 [|b3 [|b4 [|b5 [|b6 tl]]]]]];
      cbn [length] in Hlen; try lia.
    cbn [take] in Hall.
    repeat match goal with
           | H : Forall _ (_ :: _) |- _ => apply Forall_cons in H as [? H]
           end.
    unfold continued in *. cbn [_read_varint_loop].
    repeat match goal with
           | |- context [Z.land ?b 128 =? 0] =>
               destruct (Z.eqb_spec (Z.land b 128) 0); [done|]
           end.
    reflexivity.
  - rewrite Hend, (read_loop_flagged (incoming sock) 0 0); [|lia|].
    + repeat destruct (decide _); try reflexivity; lia.
    + apply Forall_take. exact Hall.
Qed.

Lemma read_varint_rejects_witness :
  fst (_read_varint (Socket [0x80; 0x80; 0x80; 0x80; 0x80; 0x80; 0x01] None [] []))
  = Raise (IOError "VarInt too big").
Proof.
  apply (read_varint_rejects (Socket [0x80; 0x80; 0x80; 0x80; 0x80; 0x80; 0x01] None [] [])).
  left. split.
  - cbn. lia.
  - cbn. repeat (apply List.Forall_cons; [discriminate|]).
    apply List.Forall_nil.
Defined.

(** ** The status normaliser *)

Section Normaliser.
Context (py : builtins).

Lemma dict_find_get {A} (f : pyval -> A) (k : str) (d : dict) :
  dict_find f k d = f <$> dict_get k d.
Proof.
  unfold dict_get. induction d as [|kv d IH]; cbn; [done|].
  destruct (decide (fst kv = k)); [done|exact IH].
Qed.

Lemma flatten_dict (d : dict) :
  _flatten_description py (PDict d)
  = text_of d ++ concat (map (_flatten_description py) (extra_of d)).
Proof.
  cbn [_flatten_description]. rewrite dict_find_get.
  unfold text_of, extra_of.
  destruct (dict_get (U "text") d) as [[]|], (dict_get (U "extra") d) as [[]|];
    cbn; rewrite ?app_nil_r; reflexivity.
Qed.

Lemma lstrip_spec (s : str) :
  exists l, s = l ++ lstrip s
            /\ Forall (fun c => py_isspace c = true) l
            /\ (forall c, head (lstrip s) = Some c -> py_isspace c = false).
Proof.
  induction s as [|c s (l & Hs & Hl & Hhd)].
  - exists []. cbn. repeat split; [constructor|discriminate].
  - cbn [lstrip]. destruct (py_isspace c) eqn:Hc.
    + exists (c :: l). cbn. rewrite <- Hs. repeat split; [|exact Hhd].
      constructor; assumption.
    + exists []. cbn. repeat split; [constructor|].
      intros c' [= <-]. exact Hc.
Qed.

Lemma py_strip_spec (s : str) :
  exists l r, s = l ++ py_strip s ++ r
              /\ Forall (fun c => py_isspace c = true) l
              /\ Forall (fun c => py_isspace c = true) r
              /\ (forall c, head (py_strip s) = Some c -> py_isspace c = false)
              /\ (forall c, last (py_strip s) = Some c -> py_isspace c = false).
Proof.
  destruct (lstrip_spec s) as (l & Hs & Hl & Hhd).
  destruct (lstrip_spec (rev (lstrip s))) as (r & Hr & Hrsp & Hlast).
  assert (Ht : lstrip s = py_strip s ++ rev r).
  { unfold py_strip. rewrite <- rev_app_distr, <- Hr, rev_involutive. reflexivity. }
  exists l, (rev r). repeat split.
  - rewrite <- Ht. exact Hs.
  - exact Hl.
  - apply Forall_rev. exact Hrsp.
  - intros c Hc. apply Hhd. rewrite Ht.
    destruct (py_strip s); [discriminate|exact Hc].
  - intros c Hc. apply Hlast. unfold py_strip in Hc.
    destruct (lstrip (rev (lstrip s))) as [|c' t]; [discriminate|].
    cbn [rev] in Hc. rewrite last_snoc in Hc. exact Hc.
Qed.

End Normaliser.

(** C7. The normaliser. Flattening takes a string as it is, an object as
    its [text] followed by its [extra] nodes flattened in order, and an
    array as its elements flattened in order. Stripping scans left to
    right: a marker and the character after it go together, a marker
    at the very end goes alone, any other character stays. The MOTD is
    the stripped text without the white space at its two ends. The
    object [{"text":"A","extra":[{"text":"B"},"C"]}] flattens to ["ABC"]. *)
Theorem normaliser_contract (py : builtins) :
  (forall s, _flatten_description py (PStr s) = s)
  /\ (forall d, _flatten_description py (PDict d)
                = text_of d ++ concat (map (_flatten_description py) (extra_of d)))
  /\ (forall l, _flatten_description py (PList l)
                = concat (map (_flatten_description py) l))
  /\ (forall c rest, _strip_motd_color_codes (marker :: c :: rest)
                     = _strip_motd_color_codes rest)
  /\ _strip_motd_color_codes [marker] = []
  /\ (forall c rest, c <> marker ->
        _strip_motd_color_codes (c :: rest) = c :: _strip_motd_color_codes rest)
  /\ _strip_motd_color_codes [] = []
  /\ (forall desc,
        let stripped := _strip_motd_color_codes (_flatten_description py desc) in
        exists l r,
          stripped = l ++ motd_of py desc ++ r
          /\ Forall (fun c => py_isspace c = true) l
          /\ Forall (fun c => py_isspace c = true) r
          /\ (forall c, head (motd_of py desc) = Some c -> py_isspace c = false)
          /\ (forall c, last (motd_of py desc) = Some c -> py_isspace c = false))
  /\ _flatten_description py
       (PDict [(U "text", PStr (U "A"));
               (U "extra", PList [PDict [(U "text", PStr (U "B"))]; PStr (U "C")])])
     = U "ABC".
Proof.
  repeat apply conj.
  - reflexivity.
  - apply flatten_dict.
  - reflexivity.
  - intros c rest. cbn. destruct (decide (marker = marker)); [reflexivity|done].
  - reflexivity.
  - intros c rest Hc. cbn. destruct (decide (c = marker)); [done|reflexivity].
  - reflexivity.
  - intros desc stripped. apply py_strip_spec.
  - reflexivity.
Qed.

(** ** The status query *)

Section QueryProperties.
Context (py : builtins).

Lemma bind_Ok {A B} (r : result A) (k : A -> result B) (b : B) :
  r ≫= k = Ok b -> exists a, r = Ok a /\ k a = Ok b.
Proof. destruct r as [a|e]; cbn; [eauto|discriminate]. Qed.

Lemma parse_status_online (body : bytes) (out : dict) :
  parse_status py body = Ok out ->
  exists motd p_online p_max v_name v_protocol,
    out = online_status motd p_online p_max v_name v_protocol.
Proof.
  unfold parse_status. intros H.
  repeat match type of H with
         | _ ≫= _ = Ok _ =>
             let x := fresh "x" in
             let Hx := fresh "Hx" in
             apply bind_Ok in H as (x & Hx & H)
         | match ?p with _ => _ end = Ok _ => destruct p
         end.
  injection H as <-. unfold online_status. eauto 10.
Qed.

Lemma io_bind_fst_Ok {A B} (m : io A) (k : A -> io B) (sock : socket) (b : B) :
  fst ((m ≫= k) sock) = Ok b ->
  exists a sock', m sock = (Ok a, sock') /\ fst (k a sock') = Ok b.
Proof.
  unfold mbind, io_bind. destruct (m sock) as [[a|e] sock']; cbn; [eauto|discriminate].
Qed.

Lemma status_exchange_online (host : str) (port protocol : Z) (sock : socket)
    (out : dict) :
  fst (status_exchange py host port protocol sock) = Ok out ->
  exists body, parse_status py body = Ok out.
Proof.
  unfold status_exchange. intros H.
  repeat (apply io_bind_fst_Ok in H as (? & ? & ? & H)).
  eexists. exact H.
Qed.

Lemma query_status_try_online (net : network) (host : str) (port protocol : Z)
    (timeout : Q) (out : dict) :
  query_status_try py net host port protocol timeout = Ok out ->
  exists motd p_online p_max v_name v_protocol,
    out = online_status motd p_online p_max v_name v_protocol.
Proof.
  unfold query_status_try. intros H.
  apply bind_Ok in H as (sock & Hsock & H).
  apply status_exchange_online in H as (body & H).
  eapply parse_status_online, H.
Qed.

(** A query always ends in one of the two shapes. *)
Lemma query_status_shape (net : network) (host : str) (port protocol : Z)
    (timeout : Q) :
  status_shape (query_status py net host port protocol timeout).
Proof.
  unfold query_status.
  destruct (query_status_try py net host port protocol timeout) as [out|e] eqn:E.
  - apply query_status_try_online in E as (? & ? & ? & ? & ? & ->). constructor.
  - apply shape_offline.
Qed.

(** The failures the specification lists, each as the exception the
    [try] block ends with. *)
Lemma connection_failure (net : network) host port protocol timeout e :
  net host port timeout = Raise e ->
  query_status_try py net host port protocol timeout = Raise e.
Proof. unfold query_status_try. now intros ->. Qed.

Lemma send_ok (data : bytes) (sock : socket) :
  send_outcomes sock = [] ->
  sendall data sock
  = (Ok tt, Socket (incoming sock) (at_end sock) [] (sent sock ++ data)).
Proof. unfold sendall. now intros ->. Qed.

End QueryProperties.

(** The query on the example response, and each kind of failure. *)
Example query_example_online :
  query_status example_builtins (net answering_world) (U "mc.example.org") 25565 767 (6 # 1)
  = online_status (U "A Server") 5 20 (U "1.20.1") 763.
Proof. reflexivity. Qed.

Example query_connection_refused :
  query_status example_builtins (net refusing_world) (U "mc.example.org") 25565 767 (6 # 1)
  = offline_status (U "[Errno 111] Connection refused").
Proof. reflexivity. Qed.

Example query_timeout :
  query_status example_builtins
    (fun _ _ _ => Ok (Socket [] (Some (Exception "TimeoutError" (U "timed out"))) [] []))
    (U "mc.example.org") 25565 767 (6 # 1)
  = offline_status (U "timed out").
Proof. reflexivity. Qed.

Example query_malformed_varint :
  query_status example_builtins
    (fun _ _ _ => Ok (Socket [0x80; 0x80; 0x80; 0x80; 0x80; 0x80; 0x00] None [] []))
    (U "mc.example.org") 25565 767 (6 # 1)
  = offline_status (U "VarInt too big").
Proof. reflexivity. Qed.

Example query_closed_early :
  query_status example_builtins
    (fun _ _ _ => Ok (Socket (take 20 example_packet) None [] []))
    (U "mc.example.org") 25565 767 (6 # 1)
  = offline_status (U "Socket closed while reading").
Proof. reflexivity. Qed.

Example query_malformed_json :
  query_status example_builtins
    (fun _ _ _ => Ok (Socket [4; 0; 2; 123; 33] None [] []))
    (U "mc.example.org") 25565 767 (6 # 1)
  = offline_status (U "Expecting value").
Proof. reflexivity. Qed.

Example query_empty_body :
  query_status example_builtins
    (fun _ _ _ => Ok (Socket [0] None [] []))
    (U "mc.example.org") 25565 767 (6 # 1)
  = offline_status (U "index out of range").
Proof. reflexivity. Qed.

Example query_port_out_of_range :
  query_status example_builtins (net answering_world) (U "mc.example.org") 70000 767 (6 # 1)
  = offline_status (U "'H' format requires 0 <= number <= 65535").
Proof. reflexivity. Qed.


(** ** The fingerprint *)

Section FingerprintProperties.
Context (py : builtins).

Lemma low_app (a b : str) : low a -> low b -> low (a ++ b).
Proof. apply Forall_app_2. Qed.

Lemma low_U (s : string) : low (U s).
Proof.
  unfold low, U. apply Forall_map, Forall_forall. intros a _. cbn.
  pose proof (nat_ascii_bounded a). lia.
Qed.

Lemma low_concat (l : list str) : Forall low l -> low (concat l).
Proof. induction 1; cbn; [constructor|now apply low_app]. Qed.

Lemma low_join (sep : str) (parts : list str) :
  low sep -> Forall low parts -> low (join sep parts).
Proof.
  intros Hsep. induction 1 as [|p parts Hp Hparts IH]; cbn; [constructor|].
  destruct parts; [exact Hp|]. apply low_app; [exact Hp|]. now apply low_app.
Qed.

Lemma low_hex (digits : list Z) (x : Z) : low (SHA256.hex digits x).
Proof.
  unfold low, SHA256.hex. apply Forall_map, Forall_forall. intros sh _. cbn.
  unfold SHA256.hex_digit. change 15 with (Z.ones 4). rewrite Z.land_ones by lia.
  pose proof (Z.mod_pos_bound (Z.shiftr x sh) (2 ^ 4)).
  destruct (_ <? 10); lia.
Qed.

Lemma low_escape (c : Z) : low (json_escape c).
Proof.
  unfold json_escape.
  repeat match goal with
         | |- low (if ?b then _ else _) => destruct b eqn:?
         end;
    try (repeat constructor; lia);
    repeat first [apply low_app | apply low_hex | (repeat constructor; lia)].
Qed.

Lemma low_json_string (s : str) : low (json_string s).
Proof.
  unfold json_string. apply low_app; [repeat constructor; lia|].
  apply low_app; [|repeat constructor; lia].
  apply low_concat, Forall_map, Forall_forall. intros c _. apply low_escape.
Qed.

Lemma Forall_insert_item {A} (P : str * A -> Prop) kv (l : list (str * A)) :
  P kv -> Forall P l -> Forall P (insert_item kv l).
Proof.
  intros Hkv. induction 1 as [|kv' l Hkv' Hl IH]; cbn.
  - repeat constructor; assumption.
  - destruct (str_leb (fst kv) (fst kv')); repeat constructor; assumption.
Qed.

Lemma Forall_sort_items {A} (P : str * A -> Prop) (l : list (str * A)) :
  Forall P l -> Forall P (sort_items l).
Proof.
  induction 1; cbn; [constructor|]. now apply Forall_insert_item.
Qed.

Lemma low_json_dumps (v : pyval) : low (json_dumps py v).
Proof.
  induction v as [| [] | z | f | s | l IH | d IH] using pyval_nested_ind;
    cbn [json_dumps].
  - apply low_U.
  - apply low_U.
  - apply low_U.
  - unfold str_of_Z. apply low_U.
  - unfold floatstr. destruct f as [|[]| |]; apply low_U.
  - apply low_json_string.
  - apply low_app; [apply low_U|]. apply low_app; [|apply low_U].
    apply low_join; [apply low_U|]. apply Forall_map. exact IH.
  - apply low_app; [apply low_U|]. apply low_app; [|apply low_U].
    apply low_join; [apply low_U|]. apply Forall_map.
    eapply Forall_impl.
    + apply Forall_sort_items with (P := fun kv => low (snd kv)).
      apply Forall_map. exact IH.
    + intros kv Hkv. cbv beta in *. apply low_app; [apply low_json_string|].
      apply low_app; [apply low_U|exact Hkv].
Qed.

Lemma utf8_encode_low (s : str) : low s -> exists b, utf8_encode s = Ok b.
Proof.
  induction 1 as [|c s Hc Hs [b IH]]; cbn; [eauto|].
  unfold utf8_encode_char.
  destruct (c <? 128); [rewrite IH; cbn; eauto|].
  destruct (Z.ltb_spec c 2048); [rewrite IH; cbn; eauto|lia].
Qed.


(** A payload entry taken from [players] or [version]. *)
Lemma nested_entry (outer inner : str) (dflt : pyval) (s : dict) :
  object_or_falsy outer s ->
  py_get (py_or (dict_get_or outer PNone s) (PDict [])) inner dflt
  = Ok (default dflt (nested_get outer inner s)).
Proof.
  unfold object_or_falsy, nested_get, dict_get_or, py_or. intros Hobj.
  destruct (dict_get outer s) as [v|]; cbn; [|reflexivity].
  destruct (truthy v) eqn:Hv.
  - destruct (Hobj v eq_refl Hv) as [d ->]. reflexivity.
  - destruct v; try reflexivity. cbn in Hv. destruct d; [reflexivity|discriminate].
Qed.

Lemma hash_payload_fields (s : dict) :
  well_formed s ->
  hash_payload s
  = Ok [(U "online", default (PBool false) (dict_get (U "online") s));
        (U "motd", default (PStr []) (dict_get (U "motd") s));
        (U "players_online",
         default (PInt 0) (nested_get (U "players") (U "online") s));
        (U "players_max",
         default (PInt 0) (nested_get (U "players") (U "max") s));
        (U "version_name",
         default (PStr []) (nested_get (U "version") (U "name") s));
        (U "version_protocol",
         default (PInt 0) (nested_get (U "version") (U "protocol") s))].
Proof.
  intros [Hp Hv]. unfold hash_payload.
  rewrite !nested_entry by assumption. reflexivity.
Qed.

(** The fingerprint of a well-formed status is defined. *)
Lemma hash_state_defined (s : dict) :
  well_formed s ->
  exists input, hash_input py s = Ok input
                /\ _hash_state py s = Ok (SHA256.hexdigest input).
Proof.
  intros Hwf. unfold _hash_state, hash_input.
  rewrite hash_payload_fields by assumption. cbn [mbind result_bind].
  destruct (utf8_encode_low _ (low_json_dumps (PDict
    [(U "online", default (PBool false) (dict_get (U "online") s));
     (U "motd", default (PStr []) (dict_get (U "motd") s));
     (U "players_online", default (PInt 0) (nested_get (U "players") (U "online") s));
     (U "players_max", default (PInt 0) (nested_get (U "players") (U "max") s));
     (U "version_name", default (PStr []) (nested_get (U "version") (U "name") s));
     (U "version_protocol",
      default (PInt 0) (nested_get (U "version") (U "protocol") s))])))
    as [input Hinput].
  exists input. rewrite Hinput. split; reflexivity.
Qed.

End FingerprintProperties.

(** C2. The fingerprint depends on the six canonical fields only: two
    statuses that hold the same [online], [motd], [players.online],
    [players.max], [version.name] and [version.protocol] have the same
    fingerprint, whatever else they hold; [_hash_state] being a function
    of its argument, equal statuses have equal fingerprints. *)
Theorem hash_state_canonical (py : builtins) (a b : dict) :
  well_formed a -> well_formed b ->
  canonical_fields a = canonical_fields b ->
  _hash_state py a = _hash_state py b
  /\ exists digest, _hash_state py a = Ok digest.
Proof.
  intros Ha Hb Heq. unfold canonical_fields in Heq.
  injection Heq as H1 H2 H3 H4 H5 H6.
  assert (Hpayload : hash_payload a = hash_payload b).
  { rewrite !hash_payload_fields by assumption.
    rewrite H1, H2, H3, H4, H5, H6. reflexivity. }
  split.
  - unfold _hash_state, hash_input. rewrite Hpayload. reflexivity.
  - destruct (hash_state_defined py a Ha) as (input & _ & H). eauto.
Qed.

Lemma hash_state_canonical_witness :
  _hash_state example_builtins
    [(U "online", PBool false); (U "error", PStr (U "timed out"))]
  = _hash_state example_builtins
      [(U "online", PBool false); (U "error", PStr (U "[Errno 111] Connection refused"))]
  /\ exists digest,
       _hash_state example_builtins
         [(U "online", PBool false); (U "error", PStr (U "timed out"))]
       = Ok digest.
Proof.
  apply (hash_state_canonical example_builtins
           [(U "online", PBool false); (U "error", PStr (U "timed out"))]
           [(U "online", PBool false);
            (U "error", PStr (U "[Errno 111] Connection refused"))]).
  - split; intros v Hv; discriminate Hv.
  - split; intros v Hv; discriminate Hv.
  - reflexivity.
Defined.

Section Sensitivity.
Context (py : builtins).



End Sensitivity.



(** ** The monitor engine *)

Section MonitorProperties.
Context (py : builtins).

Lemma status_shape_well_formed (s : dict) : status_shape s -> well_formed s.
Proof.
  intros [error|motd p_online p_max v_name v_protocol];
    split; intros v Hv Ht; cbn in Hv; try discriminate Hv;
    injection Hv as <-; eauto.
Qed.

Lemma status_hash_defined (s : dict) :
  status_shape s -> exists now_hash, _hash_state py s = Ok now_hash.
Proof.
  intros Hs. destruct (hash_state_defined py s (status_shape_well_formed s Hs))
    as (input & _ & H). eauto.
Qed.




(** A poll of a server without a host does nothing. *)
Lemma monitor_once_no_host (w : world) (st : state) (srv : server) :
  srv_host srv = None \/ srv_host srv = Some [] ->
  monitor_once py w st srv = Ok (st, []).
Proof. unfold monitor_once. intros [-> | ->]; reflexivity. Qed.


(** The Unchanged branch. *)
Lemma monitor_once_unchanged (w : world) (st : state) (srv : server) (host : str)
    (now_hash : str) :
  srv_host srv = Some host -> host <> [] ->
  _hash_state py (polled_status py w srv host) = Ok now_hash ->
  bl_hash <$> baselines st !! key_of srv host = Some now_hash ->
  monitor_once py w st srv = Ok (st, heartbeat st srv host).
Proof.
  intros Hhost Hne Hhash Hprev.
  unfold monitor_once. rewrite Hhost. destruct host as [|c host']; [done|].
  fold (polled_status py w srv (c :: host')). fold (display_name srv (c :: host')).
  fold (key_of srv (c :: host')).
  rewrite Hhash. cbn [mbind result_bind].
  destruct (decide _) as [Hne'|_]; [done|]. reflexivity.
Qed.

Lemma baselines_set (key : str) (bl : baseline) (st : state) :
  baselines (set_baseline key bl st) = <[key := bl]> (baselines st).
Proof. reflexivity. Qed.



End MonitorProperties.



(** C4. A poll whose fingerprint equals the stored one leaves the state
    as it is and does nothing but print the heartbeat line when
    [verbose_status] is set: no post, no write. And after any poll, a
    second poll of the same server that obtains a status of the same
    fingerprint is such a poll. *)
Theorem unchanged_poll (py : builtins) (w : world) (st : state) (srv : server)
    (host : str) :
  srv_host srv = Some host -> host <> [] ->
  (forall now_hash,
      _hash_state py (polled_status py w srv host) = Ok now_hash ->
      bl_hash <$> baselines st !! key_of srv host = Some now_hash ->
      monitor_once py w st srv = Ok (st, heartbeat st srv host))
  /\ (forall w2 st1 ev1,
        monitor_once py w st srv = Ok (st1, ev1) ->
        _hash_state py (polled_status py w2 srv host)
        = _hash_state py (polled_status py w srv host) ->
        monitor_once py w2 st1 srv = Ok (st1, heartbeat st1 srv host))
  /\ (forall e, e ∈ heartbeat st srv host -> exists line, e = ConsolePrint line).
Proof.
  intros Hhost Hne. repeat split.
  - intros now_hash Hhash Hprev. now apply (monitor_once_unchanged py w st srv host now_hash).
  - intros w2 st1 ev1 Hrun Hsame.
    destruct (status_hash_defined py (polled_status py w srv host)
                (query_status_shape py _ _ _ _ _)) as [now_hash Hhash].
    rewrite Hhash in Hsame.
    apply (monitor_once_unchanged py w2 st1 srv host now_hash Hhost Hne Hsame).
    destruct (decide (bl_hash <$> baselines st !! key_of srv host = Some now_hash))
      as [Hold|Hdiff].
    + rewrite (monitor_once_unchanged py w st srv host now_hash Hhost Hne Hhash Hold)
        in Hrun.
      injection Hrun as <- _. exact Hold.
    + revert Hrun. unfold monitor_once. rewrite Hhost.
      destruct host as [|c host']; [done|].
      fold (polled_status py w srv (c :: host')).
      fold (display_name srv (c :: host')). fold (key_of srv (c :: host')).
      rewrite Hhash. cbn [mbind result_bind].
      destruct (decide _) as [_|Heq]; [|done].
      destruct (_format_fields _ _ _) as [fields|]; [|discriminate].
      cbn [mbind result_bind].
      destruct (change_line _ _ _ _ _) as [line|]; [|discriminate].
      cbn [mbind result_bind]. intros [= <- _].
      rewrite baselines_set, lookup_insert_eq. reflexivity.
  - unfold heartbeat. intros e He. destruct (verbose_status st).
    + apply list_elem_of_singleton in He as ->. eauto.
    + now apply elem_of_nil in He.
Qed.

Lemma unchanged_poll_witness :
  exists st1 ev1,
    monitor_once example_builtins answering_world example_state example_server
    = Ok (st1, ev1)
    /\ monitor_once example_builtins answering_world st1 example_server
       = Ok (st1, heartbeat st1 example_server (U "mc.example.org")).
Proof.
  destruct (monitor_once example_builtins answering_world example_state example_server)
    as [[st1 ev1]|e] eqn:Hrun.
  - exists st1, ev1. split; [reflexivity|].
    destruct (unchanged_poll example_builtins answering_world example_state
                example_server (U "mc.example.org")) as (_ & Htwice & _).
    + reflexivity.
    + discriminate.
    + apply (Htwice answering_world st1 ev1 Hrun eq_refl).
  - vm_compute in Hrun. discriminate Hrun.
Defined.






(* ================================================================= *)
(** * Further properties *)

(** ** More on the VarInt codec *)

Section VarIntMore.

Lemma low7_range (w : Z) : 0 <= Z.land w 127 <= 127.
Proof.
  change 127 with (Z.ones 7) at 1 2. rewrite Z.land_ones by lia.
  pose proof (Z.mod_pos_bound w (2 ^ 7)). lia.
Qed.

Lemma flagged_range (w : Z) : 128 <= Z.lor (Z.land w 127) 128 <= 255.
Proof.
  pose proof (Z.add_lor_land (Z.land w 127) 128) as H.
  rewrite unflagged_high in H. pose proof (low7_range w). lia.
Qed.

Lemma pack_loop_shape (v : N) :
  forall k : nat,
    Z.of_N v < 2 ^ (7 * (Z.of_nat k + 1)) ->
    exists init final,
      _pack_varint_loop v = init ++ [final]
      /\ (length init <= k)%nat
      /\ Forall (fun b => 128 <= b <= 255) init
      /\ 0 <= final <= 127.
Proof.
  induction v as [v IH] using (well_founded_induction N.lt_wf_0).
  intros k Hv. rewrite pack_loop_unfold.
  destruct (N.eqb_spec (N.shiftr v 7) 0) as [Hz|Hnz].
  - exists [], (Z.of_N (N.land v 127)). repeat split; [cbn; lia|constructor| |];
      rewrite N2Z.inj_land; apply low7_range.
  - assert (Hlt : (N.shiftr v 7 < v)%N).
    { rewrite N.shiftr_div_pow2. apply N.div_lt; [|done]. destruct v; [done|lia]. }
    assert (Hsh : Z.of_N (N.shiftr v 7) = Z.shiftr (Z.of_N v) 7) by apply N2Z.inj_shiftr.
    destruct k as [|k].
    { exfalso. apply Hnz. rewrite N.shiftr_div_pow2. apply N.div_small.
      cbn in Hv. lia. }
    destruct (IH (N.shiftr v 7) Hlt k) as (init & final & Heq & Hlen & Hinit & Hfinal).
    { rewrite Hsh, Z.shiftr_div_pow2 by lia.
      apply Z.div_lt_upper_bound; [lia|]. rewrite <- Z.pow_add_r by lia.
      replace (7 + 7 * (Z.of_nat k + 1)) with (7 * (Z.of_nat (S k) + 1)) by lia.
      exact Hv. }
    exists (Z.of_N (N.lor (N.land v 127) 128) :: init), final.
    rewrite Heq. repeat split; [cbn; lia| |apply Hfinal|apply Hfinal].
    constructor; [|exact Hinit].
    rewrite N2Z.inj_lor, N2Z.inj_land. apply flagged_range.
Qed.

Lemma masked_range (n : Z) : 0 <= Z.land n 0xFFFFFFFF < 2 ^ 32.
Proof.
  change 0xFFFFFFFF with (Z.ones 32). rewrite Z.land_ones by lia.
  apply Z.mod_pos_bound. lia.
Qed.

Lemma lor_below (a b m : Z) :
  0 <= m -> 0 <= a < 2 ^ m -> 0 <= b < 2 ^ m -> 0 <= Z.lor a b < 2 ^ m.
Proof.
  intros Hm Ha Hb. split; [apply Z.lor_nonneg; lia|].
  destruct (Z.eq_dec a 0) as [->|Hna]; [rewrite Z.lor_0_l; lia|].
  destruct (Z.eq_dec b 0) as [->|Hnb]; [rewrite Z.lor_0_r; lia|].
  assert (0 < Z.lor a b).
  { assert (0 <= Z.lor a b) by (apply Z.lor_nonneg; lia).
    assert (Z.lor a b <> 0); [|lia]. intros H0. apply Z.lor_eq_0_iff in H0. lia. }
  apply Z.log2_lt_pow2; [lia|]. rewrite Z.log2_lor by lia.
  assert (Z.log2 a < m) by (apply Z.log2_lt_pow2; lia).
  assert (Z.log2 b < m) by (apply Z.log2_lt_pow2; lia).
  lia.
Qed.

Lemma accumulate_below (num val k : Z) :
  0 <= k -> 0 <= num < 2 ^ (7 * k) ->
  0 <= Z.lor num (Z.shiftl (Z.land val 127) (7 * k)) < 2 ^ (7 * (k + 1)).
Proof.
  intros Hk Hnum. pose proof (low7_range val) as Hlow.
  assert (Hpow : 2 ^ (7 * (k + 1)) = 128 * 2 ^ (7 * k)).
  { replace (7 * (k + 1)) with (7 + 7 * k) by lia. rewrite Z.pow_add_r by lia.
    reflexivity. }
  apply lor_below; [lia| |].
  - rewrite Hpow. nia.
  - rewrite Z.shiftl_mul_pow2 by lia. rewrite Hpow. nia.
Qed.

Lemma read_loop_range (pending : bytes) :
  forall (e : option exn) (num k n : Z) (rest : bytes),
    0 <= k <= 5 -> 0 <= num < 2 ^ (7 * k) ->
    _read_varint_loop pending e num k = (Ok n, rest) ->
    0 <= n < 2 ^ 35
    /\ exists used, pending = used ++ rest
                    /\ (1 <= length used)%nat /\ Z.of_nat (length used) <= 5 - k.
Proof.
  induction pending as [|val pending IH]; intros e num k n rest Hk Hnum Hrun.
  - cbn in Hrun. destruct e; discriminate Hrun.
  - cbn [_read_varint_loop] in Hrun.
    pose proof (accumulate_below num val k ltac:(lia) Hnum) as Hacc.
    destruct (Z.ltb_spec 5 (k + 1)); [discriminate Hrun|].
    assert (2 ^ (7 * (k + 1)) <= 2 ^ 35) by (apply Z.pow_le_mono_r; lia).
    destruct (Z.land val 128 =? 0).
    + injection Hrun as <- <-. split; [lia|]. exists [val]. cbn. split; [done|lia].
    + assert (k + 1 <= 4 \/ k + 1 = 5) as [Hk4|Hk5] by lia.
      * destruct (IH e _ (k + 1) n rest ltac:(lia) Hacc Hrun)
          as (Hn & used & -> & Hlen1 & Hlen2).
        split; [exact Hn|]. exists (val :: used). cbn. split; [done|lia].
      * exfalso. rewrite Hk5 in Hrun. destruct pending as [|val' pending'].
        -- cbn in Hrun. destruct e; discriminate Hrun.
        -- cbn in Hrun. discriminate Hrun.
Qed.

End VarIntMore.

(** X1. The encoding of any integer is one to five bytes: all but the
    last carry the continuation flag, the last does not, and each is a
    byte. *)
Theorem pack_varint_shape (n : Z) :
  exists init final,
    _pack_varint n = init ++ [final]
    /\ (length init <= 4)%nat
    /\ Forall (fun b => 128 <= b <= 255) init
    /\ 0 <= final <= 127.
Proof.
  unfold _pack_varint. apply pack_loop_shape.
  pose proof (masked_range n). rewrite Z2N.id by lia.
  change (Z.of_nat 4) with 4. assert (2 ^ 32 <= 2 ^ (7 * (4 + 1))) by (cbn; lia). lia.
Qed.

(** X2. Decoding what was encoded gives the integer modulo [2^32], for
    every integer: a negative number or one above 32 bits does not come
    back as itself. *)
Theorem varint_decode_mod (n : Z) (sock : socket) (rest : bytes) :
  incoming sock = _pack_varint n ++ rest ->
  _read_varint sock = (Ok (n mod 2 ^ 32), set_incoming sock rest).
Proof.
  intros Hin. unfold _read_varint, _pack_varint in *. rewrite Hin.
  pose proof (masked_range n) as Hm.
  rewrite read_pack_loop; [|lia|rewrite Z2N.id by lia; cbn; lia].
  rewrite Z2N.id by lia. cbn [Z.mul]. rewrite Z.shiftl_0_r, Z.lor_0_l.
  change 0xFFFFFFFF with (Z.ones 32). rewrite Z.land_ones by lia. reflexivity.
Qed.

Lemma varint_decode_mod_witness :
  _read_varint (Socket (_pack_varint (-1) ++ [7]) None [] [])
  = (Ok 4294967295, Socket [7] None [] []).
Proof.
  apply (varint_decode_mod (-1) (Socket (_pack_varint (-1) ++ [7]) None [] []) [7]).
  reflexivity.
Defined.

(** X3. A decoded VarInt lies in [0, 2^35), so it can exceed 32 bits, and
    decoding consumed between one and five bytes of the stream. *)
Theorem read_varint_range (sock sock' : socket) (n : Z) :
  _read_varint sock = (Ok n, sock') ->
  0 <= n < 2 ^ 35
  /\ exists used, incoming sock = used ++ incoming sock'
                  /\ (1 <= length used <= 5)%nat.
Proof.
  unfold _read_varint.
  destruct (_read_varint_loop (incoming sock) (at_end sock) 0 0) as [r rest] eqn:E.
  intros [= -> <-].
  destruct (read_loop_range _ _ 0 0 n rest ltac:(lia) ltac:(cbn; lia) E)
    as (Hn & used & Hused & H1 & H5).
  split; [exact Hn|]. exists used. cbn. split; [exact Hused|lia].
Qed.

Lemma read_varint_range_witness :
  0 <= 34359738367 < 2 ^ 35
  /\ exists used,
       [0xFF; 0xFF; 0xFF; 0xFF; 0x7F; 9] = used ++ [9]
       /\ (1 <= length used <= 5)%nat.
Proof.
  apply (read_varint_range (Socket [0xFF; 0xFF; 0xFF; 0xFF; 0x7F; 9] None [] [])
           (Socket [9] None [] []) 34359738367).
  reflexivity.
Defined.

(** ** Reading an exact number of bytes *)

Section RecvExact.

Lemma recv_exact_loop_unfold (n : Z) (data : bytes) (sock : socket) :
  _recv_exact_loop n data sock
  = if decide (len data < n) then
      match recv (n - len data) sock with
      | (Raise e, sock') => (Raise e, sock')
      | (Ok [], sock') => (Raise (IOError "Socket closed while reading"), sock')
      | (Ok (c :: chunk), sock') => _recv_exact_loop n (data ++ c :: chunk) sock'
      end
    else (Ok data, sock).
Proof.
  funelim (_recv_exact_loop n data sock);
    destruct (decide (len data < n)) as [Hlt|Hge]; try done;
    try (rewrite Heq; reflexivity).
Qed.

Lemma set_incoming_same (sock : socket) : set_incoming sock (incoming sock) = sock.
Proof. destruct sock; reflexivity. Qed.

Lemma recv_exact_available (n : Z) (sock : socket) :
  n <= len (incoming sock) ->
  _recv_exact n sock
  = (Ok (take (Z.to_nat n) (incoming sock)),
     set_incoming sock (drop (Z.to_nat n) (incoming sock))).
Proof.
  intros Hn. unfold _recv_exact. rewrite recv_exact_loop_unfold.
  change (len (@nil Z)) with 0. rewrite Z.sub_0_r.
  destruct (decide (0 < n)) as [Hpos|Hneg].
  - unfold recv. unfold len in Hn.
    destruct (incoming sock) as [|c pending] eqn:Hin; [cbn in Hn; lia|].
    destruct (Z.to_nat n) as [|k] eqn:Hk; [lia|]. cbn [take drop app].
    rewrite recv_exact_loop_unfold.
    assert (Hlen : len (c :: take k pending) = n).
    { unfold len. cbn [length] in *. rewrite length_take. lia. }
    rewrite Hlen. destruct (decide (n < n)); [lia|reflexivity].
  - replace (Z.to_nat n) with 0%nat by lia. cbn [take drop].
    now rewrite set_incoming_same.
Qed.

Lemma recv_exact_missing (n : Z) (sock : socket) :
  len (incoming sock) < n ->
  fst (_recv_exact n sock)
  = Raise (match at_end sock with
           | None => IOError "Socket closed while reading"
           | Some e => e
           end).
Proof.
  intros Hn. unfold _recv_exact. rewrite recv_exact_loop_unfold.
  change (len (@nil Z)) with 0. rewrite Z.sub_0_r. unfold len in Hn.
  destruct (decide (0 < n)) as [Hpos|Hneg]; [|lia].
  unfold recv. destruct (incoming sock) as [|c pending] eqn:Hin.
  - destruct (at_end sock); reflexivity.
  - rewrite take_ge, drop_ge by (cbn [length] in *; lia). cbn [app].
    rewrite recv_exact_loop_unfold.
    destruct (decide (len (c :: pending) < n)) as [_|Hge]; [|unfold len in Hge; lia].
    unfold recv, set_incoming. cbn [incoming at_end].
    destruct (at_end sock); reflexivity.
Qed.

End RecvExact.

(** X4. [_recv_exact] returns exactly the next [n] bytes when the
    stream holds that many, and leaves the bytes after them; for [n] of
    zero or less it returns nothing and reads nothing. *)
Theorem recv_exact_enough (n : Z) (sock : socket) :
  n <= len (incoming sock) ->
  _recv_exact n sock
  = (Ok (take (Z.to_nat n) (incoming sock)),
     set_incoming sock (drop (Z.to_nat n) (incoming sock))).
Proof. apply recv_exact_available. Qed.

Lemma recv_exact_enough_witness :
  _recv_exact 2 (Socket [10; 20; 30] None [] []) = (Ok [10; 20], Socket [30] None [] []).
Proof.
  apply (recv_exact_enough 2 (Socket [10; 20; 30] None [] [])).
  unfold len. cbn [incoming length]. lia.
Defined.

(** X5. [_recv_exact] never returns fewer bytes than asked: when the
    stream ends first, it raises "Socket closed while reading" if the
    peer closed, and the error of [recv] otherwise. *)
Theorem recv_exact_short (n : Z) (sock : socket) :
  len (incoming sock) < n ->
  fst (_recv_exact n sock)
  = Raise (match at_end sock with
           | None => IOError "Socket closed while reading"
           | Some e => e
           end).
Proof. apply recv_exact_missing. Qed.

Lemma recv_exact_short_witness :
  fst (_recv_exact 5 (Socket [10; 20; 30] None [] []))
  = Raise (IOError "Socket closed while reading").
Proof.
  apply (recv_exact_short 5 (Socket [10; 20; 30] None [] [])).
  unfold len. cbn [incoming length]. lia.
Defined.

(** ** The exchange on a well-framed response *)

Section Exchange.
Context (py : builtins).

Lemma read_packed (n : Z) (sock : socket) (rest : bytes) :
  incoming sock = _pack_varint n ++ rest ->
  _read_varint sock = (Ok (n mod 2 ^ 32), set_incoming sock rest).
Proof.
  intros Hin. unfold _read_varint, _pack_varint in *. rewrite Hin.
  pose proof (masked_range n) as Hm.
  rewrite read_pack_loop; [|lia|rewrite Z2N.id by lia; cbn; lia].
  rewrite Z2N.id by lia. cbn [Z.mul]. rewrite Z.shiftl_0_r, Z.lor_0_l.
  change 0xFFFFFFFF with (Z.ones 32). rewrite Z.land_ones by lia. reflexivity.
Qed.

(** The loop over the body reads what the packing loop wrote. *)
Lemma body_varint_pack_loop (what : string) (v : N) :
  forall (rest : bytes) (L idx acc k : Z),
    0 <= k <= 4 ->
    Z.of_N v < 2 ^ (7 * (5 - k)) ->
    idx + len (_pack_varint_loop v) <= L ->
    body_varint what (_pack_varint_loop v ++ rest) L idx acc (7 * k)
    = Ok (Z.lor acc (Z.shiftl (Z.of_N v) (7 * k)),
          idx + len (_pack_varint_loop v), rest).
Proof.
  induction v as [v IH] using (well_founded_induction N.lt_wf_0).
  intros rest L idx acc k Hk Hv HL. revert HL.
  rewrite pack_loop_unfold.
  destruct (N.eqb_spec (N.shiftr v 7) 0) as [Hz|Hnz]; intros HL.
  - cbn [app body_varint].
    rewrite N2Z.inj_land. change (Z.of_N 127) with 127.
    rewrite unflagged_high. cbn [Z.eqb].
    rewrite <- Z.land_assoc. change (Z.land 127 127) with 127.
    apply small_shiftr in Hz.
    replace (Z.land (Z.of_N v) 127) with (Z.of_N v); [reflexivity|].
    change 127 with (Z.ones 7). rewrite Z.land_ones by lia.
    symmetry. apply Z.mod_small. lia.
  - cbn [app body_varint].
    rewrite N2Z.inj_lor, N2Z.inj_land.
    change (Z.of_N 127) with 127. change (Z.of_N 128) with 128.
    rewrite flagged_high, flagged_low. cbn [Z.eqb].
    assert (Hlt : (N.shiftr v 7 < v)%N).
    { rewrite N.shiftr_div_pow2. apply N.div_lt; [|done]. destruct v; [done|lia]. }
    assert (Hsh : Z.of_N (N.shiftr v 7) = Z.shiftr (Z.of_N v) 7) by apply N2Z.inj_shiftr.
    assert (Hk3 : k <= 3).
    { destruct (Z.le_gt_cases k 3) as [|Hk4]; [done|].
      exfalso. apply Hnz. rewrite N.shiftr_div_pow2. apply N.div_small.
      replace k with 4 in Hv by lia. cbn in Hv. lia. }
    assert (Hmore : 1 <= len (_pack_varint_loop (N.shiftr v 7))).
    { rewrite pack_loop_unfold. destruct (N.eqb _ _); unfold len; cbn [length]; lia. }
    unfold len in HL, Hmore. cbn [length] in HL.
    destruct (Z.leb_spec L (idx + 1)); [lia|].
    destruct (Z.ltb_spec 35 (7 * k + 7)); [lia|]. cbn [orb].
    replace (7 * k + 7) with (7 * (k + 1)) by lia.
    rewrite IH; [|exact Hlt|lia| |unfold len; lia].
    + assert (Hval : Z.lor (Z.lor acc (Z.shiftl (Z.land (Z.of_N v) 127) (7 * k)))
                       (Z.shiftl (Z.of_N (N.shiftr v 7)) (7 * (k + 1)))
                     = Z.lor acc (Z.shiftl (Z.of_N v) (7 * k))).
      { rewrite <- Z.lor_assoc. f_equal.
        rewrite Hsh. replace (7 * (k + 1)) with (7 * k + 7) by lia.
        apply lor_groups. lia. }
      rewrite Hval. unfold len. cbn [length].
      replace (idx + 1 + Z.of_nat (length (_pack_varint_loop (N.shiftr v 7))))
        with (idx + Z.of_nat (S (length (_pack_varint_loop (N.shiftr v 7))))) by lia.
      reflexivity.
    + rewrite Hsh, Z.shiftr_div_pow2 by lia.
      apply Z.div_lt_upper_bound; [lia|].
      rewrite <- Z.pow_add_r by lia.
      replace (7 + 7 * (5 - (k + 1))) with (7 * (5 - k)) by lia. exact Hv.
Qed.

Lemma body_varint_pack (what : string) (n : Z) (rest : bytes) (L idx : Z) :
  idx + len (_pack_varint n) <= L ->
  body_varint what (_pack_varint n ++ rest) L idx 0 0
  = Ok (n mod 2 ^ 32, idx + len (_pack_varint n), rest).
Proof.
  intros HL. unfold _pack_varint in *. pose proof (masked_range n) as Hm.
  change 0 with (7 * 0) at 2.
  rewrite body_varint_pack_loop; [|lia|rewrite Z2N.id by lia; cbn; lia|exact HL].
  rewrite Z2N.id by lia. cbn [Z.mul]. rewrite Z.shiftl_0_r, Z.lor_0_l.
  change 0xFFFFFFFF with (Z.ones 32). rewrite Z.land_ones by lia. reflexivity.
Qed.

(** The body parser hands the JSON text, and nothing else, to
    [json.loads]. *)
Lemma parse_response_body (pid : Z) (js trailing : bytes) :
  len js < 2 ^ 32 ->
  parse_status py (response_body pid js trailing)
  = json_loads py js ≫= status_of_document py.
Proof.
  intros Hjs. unfold parse_status, response_body.
  rewrite body_varint_pack.
  2: { unfold len. rewrite !length_app. lia. }
  cbn [mbind result_bind]. rewrite body_varint_pack.
  2: { unfold len. rewrite !length_app. lia. }
  cbn [mbind result_bind].
  rewrite Z.mod_small by (unfold len in *; lia).
  unfold len. rewrite Nat2Z.id, take_app_length. reflexivity.
Qed.

Lemma io_bind_ok {A B} (m : io A) (k : A -> io B) (sock sock' : socket) (a : A) :
  m sock = (Ok a, sock') -> (m ≫= k) sock = k a sock'.
Proof. unfold mbind, io_bind. now intros ->. Qed.

Lemma io_bind_raise {A B} (m : io A) (k : A -> io B) (sock sock' : socket) (e : exn) :
  m sock = (Raise e, sock') -> (m ≫= k) sock = (Raise e, sock').
Proof. unfold mbind, io_bind. now intros ->. Qed.

(** The packet [status_exchange] builds is the handshake. *)
Lemma handshake_built (host : str) (h : bytes) (port protocol : Z) :
  utf8_encode host = Ok h -> 0 <= port <= 65535 ->
  (h ← _pack_mc_string host;
   p ← struct_pack_H port;
   let data := _pack_varint 0x00 ++ _pack_varint protocol ++ h ++ p ++ _pack_varint 1 in
   Ok (_pack_varint (len data) ++ data))
  = Ok (handshake h port protocol).
Proof.
  intros Hh Hport. unfold _pack_mc_string, struct_pack_H. rewrite Hh.
  cbn [mbind result_bind].
  destruct (Z.leb_spec 0 port); [|lia]. destruct (Z.leb_spec port 65535); [|lia].
  cbn [andb mbind result_bind]. unfold handshake.
  change (_pack_varint 0) with [0]. change (_pack_varint 1) with [1].
  rewrite <- !app_assoc. reflexivity.
Qed.

(** The exchange on a socket that accepts what is sent and delivers a
    framed body: the body goes to the parser, the bytes behind the packet
    stay unread, the handshake and the request have been sent. *)
Lemma status_exchange_framed (host : str) (h : bytes) (port protocol : Z)
    (sock : socket) (body extra : bytes) :
  utf8_encode host = Ok h -> 0 <= port <= 65535 ->
  send_outcomes sock = [] ->
  len body < 2 ^ 32 ->
  incoming sock = response_packet body ++ extra ->
  status_exchange py host port protocol sock
  = (parse_status py body,
     Socket extra (at_end sock) []
            (sent sock ++ handshake h port protocol ++ status_request)).
Proof.
  intros Hh Hport Hsend Hbody Hin. unfold status_exchange.
  erewrite io_bind_ok; [|unfold lift; rewrite (handshake_built host h) by assumption;
                         reflexivity].
  erewrite io_bind_ok; [|apply send_ok; exact Hsend].
  erewrite io_bind_ok; [|apply send_ok; reflexivity].
  cbn [incoming at_end sent].
  erewrite io_bind_ok.
  2: { apply read_packed with (n := len body) (rest := body ++ extra).
       cbn [incoming]. rewrite Hin. unfold response_packet.
       now rewrite <- app_assoc. }
  rewrite Z.mod_small by (unfold len in *; lia).
  erewrite io_bind_ok.
  2: { apply recv_exact_available. unfold set_incoming, len. cbn [incoming].
       rewrite length_app. lia. }
  unfold lift, set_incoming, len. cbn [incoming at_end send_outcomes sent].
  rewrite Nat2Z.id, take_app_length, drop_app_length, <- app_assoc. reflexivity.
Qed.

End Exchange.

(** X6. A well-framed response is decoded whole: when the connection
    is made, the host and the port can be packed, the socket accepts what
    is sent and delivers a packet whose body holds a packet id, the
    length of the JSON text and the text, the outcome of the query is
    that of [json.loads] on exactly this text followed by the building
    of the status. The packet id, bytes of the body behind the text and
    bytes behind the packet play no part; the handshake and the request
    are what was sent. *)
Theorem framed_response_decoded (py : builtins) (net : network) (host : str)
    (port protocol : Z) (timeout : Q) (sock : socket) (h : bytes) (pid : Z)
    (js trailing extra : bytes) :
  net host port timeout = Ok sock ->
  utf8_encode host = Ok h -> 0 <= port <= 65535 ->
  send_outcomes sock = [] ->
  len (response_body pid js trailing) < 2 ^ 32 ->
  incoming sock = response_packet (response_body pid js trailing) ++ extra ->
  query_status_try py net host port protocol timeout
  = json_loads py js ≫= status_of_document py
  /\ snd (status_exchange py host port protocol sock)
     = Socket extra (at_end sock) []
              (sent sock ++ handshake h port protocol ++ status_request).
Proof.
  intros Hnet Hh Hport Hsend Hlen Hin.
  unfold query_status_try. rewrite Hnet. cbn [mbind result_bind].
  rewrite (status_exchange_framed py host h port protocol sock
             (response_body pid js trailing) extra) by assumption.
  cbn [fst snd]. split; [|reflexivity].
  apply parse_response_body.
  unfold response_body, len in *. rewrite !length_app in Hlen. lia.
Qed.

Lemma framed_response_decoded_witness :
  query_status_try example_builtins (net answering_world) (U "mc.example.org")
    25565 767 (6 # 1)
  = json_loads example_builtins example_text ≫= status_of_document example_builtins
  /\ snd (status_exchange example_builtins (U "mc.example.org") 25565 767
            (Socket example_packet None [] []))
     = Socket [] None []
         ([] ++ handshake (U "mc.example.org") 25565 767 ++ status_request).
Proof.
  apply (framed_response_decoded example_builtins (net answering_world)
           (U "mc.example.org") 25565 767 (6 # 1) (Socket example_packet None [] [])
           (U "mc.example.org") 0 example_text [] []).
  - reflexivity.
  - reflexivity.
  - lia.
  - reflexivity.
  - vm_compute. reflexivity.
  - vm_compute. reflexivity.
Defined.

(** X7. With a port outside [0, 65535], or a host that UTF-8 cannot
    encode, the query fails once the connection is made, before a byte
    is sent. *)
Theorem unpackable_target_sends_nothing (py : builtins) (host : str)
    (port protocol : Z) (sock : socket) :
  (exists e, utf8_encode host = Raise e) \/ port < 0 \/ 65535 < port ->
  exists e, status_exchange py host port protocol sock = (Raise e, sock).
Proof.
  intros H. unfold status_exchange.
  assert (Hfail : exists e, forall k : bytes -> bytes -> result bytes,
             (h ← _pack_mc_string host; p ← struct_pack_H port; k h p) = Raise e).
  { unfold _pack_mc_string, struct_pack_H.
    destruct (utf8_encode host) as [h|e] eqn:Hh; cbn [mbind result_bind]; [|eauto].
    destruct H as [[e He]|Hport]; [discriminate He|].
    destruct (Z.leb_spec 0 port), (Z.leb_spec port 65535); cbn; eauto; lia. }
  destruct Hfail as [e He]. exists e.
  erewrite io_bind_raise; [reflexivity|]. unfold lift. f_equal. apply He.
Qed.

Lemma unpackable_target_sends_nothing_witness :
  exists e,
    status_exchange example_builtins (U "mc.example.org") 70000 767
      (Socket example_packet None [] [])
    = (Raise e, Socket example_packet None [] []).
Proof.
  apply (unpackable_target_sends_nothing example_builtins (U "mc.example.org")
           70000 767 (Socket example_packet None [] [])).
  right. right. lia.
Defined.

(** ** From the document to the status *)

Section Document.
Context (py : builtins).

Lemma py_int_protocol (v : option pyval) :
  (if is_int (default (PInt 0) v) then py_int py (default (PInt 0) v) else Ok 0)
  = Ok (protocol_field v).
Proof. destruct v as [[]|]; reflexivity. Qed.

Lemma nested_entry_default (outer inner : str) (dflt : pyval) (d : dict) :
  object_or_falsy outer d ->
  py_get (py_or (dict_get_or outer (PDict []) d) (PDict [])) inner dflt
  = Ok (default dflt (nested_get outer inner d)).
Proof.
  unfold object_or_falsy, nested_get, dict_get_or, py_or. intros Hobj.
  destruct (dict_get outer d) as [v|]; cbn; [|reflexivity].
  destruct (truthy v) eqn:Hv.
  - destruct (Hobj v eq_refl Hv) as [d' ->]. reflexivity.
  - destruct v; try reflexivity. cbn in Hv. destruct d0; [reflexivity|discriminate].
Qed.

Lemma status_of_object (d : dict) :
  well_formed d ->
  status_of_document py (PDict d)
  = p_online ← py_int py (default (PInt 0) (nested_get (U "players") (U "online") d));
    p_max ← py_int py (default (PInt 0) (nested_get (U "players") (U "max") d));
    Ok (online_status (motd_of py (dict_get_or (U "description") PNone d))
          p_online p_max
          (name_field py (nested_get (U "version") (U "name") d))
          (protocol_field (nested_get (U "version") (U "protocol") d))).
Proof.
  intros [Hp Hv]. unfold status_of_document. cbn [py_get mbind result_bind].
  rewrite !nested_entry_default by assumption. cbn [mbind result_bind].
  destruct (py_int py (default (PInt 0) (nested_get (U "players") (U "online") d)))
    as [a|]; [|reflexivity]. cbn [mbind result_bind].
  destruct (py_int py (default (PInt 0) (nested_get (U "players") (U "max") d)))
    as [b|]; [|reflexivity]. cbn [mbind result_bind].
  rewrite py_int_protocol. cbn [mbind result_bind]. unfold online_status.
  destruct (nested_get (U "version") (U "name") d); reflexivity.
Qed.

End Document.

(** X8. What a response object becomes. When [players] and [version]
    are objects, or absent or false, the status is online with the
    normalised [description] as MOTD, [int] of [players.online] and of
    [players.max] (0 when absent), [str] of [version.name] (empty when
    absent) and [version.protocol] when it is an integer (0 otherwise);
    the parse fails only where one of the two [int] conversions does. *)
Theorem object_decoded (py : builtins) (pid : Z) (js trailing : bytes) (d : dict) :
  len js < 2 ^ 32 ->
  json_loads py js = Ok (PDict d) ->
  well_formed d ->
  parse_status py (response_body pid js trailing)
  = p_online ← py_int py (default (PInt 0) (nested_get (U "players") (U "online") d));
    p_max ← py_int py (default (PInt 0) (nested_get (U "players") (U "max") d));
    Ok (online_status (motd_of py (dict_get_or (U "description") PNone d))
          p_online p_max
          (name_field py (nested_get (U "version") (U "name") d))
          (protocol_field (nested_get (U "version") (U "protocol") d))).
Proof.
  intros Hlen Hjs Hwf. rewrite parse_response_body by assumption.
  rewrite Hjs. cbn [mbind result_bind]. now apply status_of_object.
Qed.

Lemma object_decoded_witness :
  parse_status example_builtins (response_body 0 example_text [])
  = Ok (online_status (U "A Server") 5 20 (U "1.20.1") 763).
Proof.
  rewrite (object_decoded example_builtins 0 example_text []
             [(U "description", PStr (U "A Server"));
              (U "players", PDict [(U "online", PInt 5); (U "max", PInt 20)]);
              (U "version", PDict [(U "name", PStr (U "1.20.1"));
                                   (U "protocol", PInt 763)])]).
  - reflexivity.
  - vm_compute. reflexivity.
  - reflexivity.
  - split; intros v [= <-] _; eauto.
Defined.

(** X9. The two numeric parts are not treated alike. A
    [version.protocol] that is no integer (a string, a float, [null], a
    list) is replaced by 0 and the status stays online; a
    [players.online] that is [null], a list or an object makes the whole
    parse fail with a [TypeError], whatever else the document holds. *)
Theorem protocol_defaults_online_fails (py : builtins) (pid : Z) (js trailing : bytes)
    (d : dict) (bad : pyval) :
  len js < 2 ^ 32 ->
  json_loads py js = Ok (PDict d) ->
  well_formed d ->
  is_int bad = false ->
  (nested_get (U "version") (U "protocol") d = Some bad ->
   forall a b,
     nested_get (U "players") (U "online") d = Some (PInt a) ->
     nested_get (U "players") (U "max") d = Some (PInt b) ->
     parse_status py (response_body pid js trailing)
     = Ok (online_status (motd_of py (dict_get_or (U "description") PNone d)) a b
             (name_field py (nested_get (U "version") (U "name") d)) 0))
  /\ (nested_get (U "players") (U "online") d = Some bad ->
      bad = PNone \/ (exists l, bad = PList l) \/ (exists o, bad = PDict o) ->
      exists msg, parse_status py (response_body pid js trailing)
                  = Raise (Exception "TypeError" msg)).
Proof.
  intros Hlen Hjs Hwf Hbad.
  rewrite (object_decoded py pid js trailing d) by assumption. split.
  - intros Hproto a b -> ->. rewrite Hproto. cbn [default py_int mbind result_bind].
    destruct bad; try reflexivity; discriminate Hbad.
  - intros -> Hkind. cbn [default].
    destruct Hkind as [->|[[l ->]|[o ->]]]; cbn; eauto.
Qed.

Lemma protocol_defaults_online_fails_witness :
  exists msg,
    parse_status
      (Builtins (fun _ => Ok (PDict [(U "players", PDict [(U "online", PNone)])]))
         (fun _ => "0.0"%string) (fun _ => U "[]")
         (fun _ => Raise (ValueError "invalid literal for int() with base 10")))
      (response_body 0 (U "{}") [])
    = Raise (Exception "TypeError" msg).
Proof.
  apply (protocol_defaults_online_fails
           (Builtins (fun _ => Ok (PDict [(U "players", PDict [(U "online", PNone)])]))
              (fun _ => "0.0"%string) (fun _ => U "[]")
              (fun _ => Raise (ValueError "invalid literal for int() with base 10")))
           0 (U "{}") [] [(U "players", PDict [(U "online", PNone)])] PNone).
  - reflexivity.
  - reflexivity.
  - split; [intros v [= <-] _; eauto|intros v Hv; discriminate Hv].
  - reflexivity.
  - reflexivity.
  - left. reflexivity.
Defined.

(** X10. A response that is not an object, or whose [players] is a
    true value other than an object (a number, a non-empty string or
    list), makes the parse fail with an [AttributeError]. *)
Theorem non_object_fails (py : builtins) (pid : Z) (js trailing : bytes) (doc : pyval) :
  len js < 2 ^ 32 ->
  json_loads py js = Ok doc ->
  (forall d, doc <> PDict d)
  \/ (exists d v, doc = PDict d /\ dict_get (U "players") d = Some v
                  /\ truthy v = true /\ forall o, v <> PDict o) ->
  exists msg, parse_status py (response_body pid js trailing)
              = Raise (Exception "AttributeError" msg).
Proof.
  intros Hlen Hjs Hbad. rewrite parse_response_body by assumption.
  rewrite Hjs. cbn [mbind result_bind]. unfold status_of_document.
  destruct Hbad as [Hnot|(d & v & -> & Hget & Htrue & Hnot)].
  - destruct doc; cbn; eauto. now destruct (Hnot d).
  - cbn [py_get mbind result_bind].
    assert (Hfail : exists msg, forall k dflt,
               py_get (py_or (dict_get_or (U "players") (PDict []) d) (PDict [])) k dflt
               = Raise (Exception "AttributeError" msg)).
    { unfold dict_get_or, py_or. rewrite Hget. cbn [default from_option id].
      rewrite Htrue. destruct v; cbn; eauto. now destruct (Hnot d0). }
    destruct Hfail as [msg Hfail]. exists msg.
    rewrite (Hfail (U "online") (PInt 0)). reflexivity.
Qed.

Lemma non_object_fails_witness :
  exists msg,
    parse_status
      (Builtins (fun _ => Ok (PList [])) (fun _ => "0.0"%string) (fun _ => U "[]")
         (fun _ => Raise (ValueError "invalid literal for int() with base 10")))
      (response_body 0 (U "[]") [])
    = Raise (Exception "AttributeError" msg).
Proof.
  apply (non_object_fails
           (Builtins (fun _ => Ok (PList [])) (fun _ => "0.0"%string) (fun _ => U "[]")
              (fun _ => Raise (ValueError "invalid literal for int() with base 10")))
           0 (U "[]") [] (PList [])).
  - reflexivity.
  - reflexivity.
  - left. intros d. discriminate.
Defined.

(** ** More on the normaliser and the fingerprint *)

Section NormaliserMore.

Lemma strip_bounded (n : nat) :
  forall s : str, (length s <= n)%nat ->
    Forall (fun c => c <> marker) (_strip_motd_color_codes s)
    /\ (length (_strip_motd_color_codes s) <= length s)%nat.
Proof.
  induction n as [|n IH]; intros s Hlen.
  - destruct s; [cbn; split; [constructor|lia]|cbn in Hlen; lia].
  - destruct s as [|c rest]; [cbn; split; [constructor|lia]|].
    cbn [_strip_motd_color_codes]. destruct (decide (c = marker)) as [->|Hc].
    + destruct rest as [|c' rest']; [cbn; split; [constructor|lia]|].
      destruct (IH rest') as [Hall Hle]; [cbn in Hlen; lia|].
      split; [exact Hall|cbn [length]; lia].
    + destruct (IH rest) as [Hall Hle]; [cbn in Hlen; lia|].
      split; [constructor; assumption|cbn [length]; lia].
Qed.

Lemma strip_clean (s : str) :
  Forall (fun c => c <> marker) s -> _strip_motd_color_codes s = s.
Proof.
  induction 1 as [|c s Hc Hs IH]; [reflexivity|].
  cbn [_strip_motd_color_codes]. destruct (decide (c = marker)); [done|].
  now rewrite IH.
Qed.

Lemma hex_lower (digits : list Z) (x : Z) : Forall lower_hex (SHA256.hex digits x).
Proof.
  unfold SHA256.hex. apply Forall_map, Forall_forall. intros sh _. cbn.
  unfold SHA256.hex_digit, lower_hex. change 15 with (Z.ones 4).
  rewrite Z.land_ones by lia.
  pose proof (Z.mod_pos_bound (Z.shiftr x sh) (2 ^ 4)).
  destruct (Z.ltb_spec (Z.shiftr x sh mod 2 ^ 4) 10); lia.
Qed.

Lemma round_length (st : list Z) (kw : Z * Z) :
  length st = 8%nat -> length (SHA256.round st kw) = 8%nat.
Proof.
  intros H. do 9 (destruct st as [|? st]; try discriminate H). reflexivity.
Qed.

Lemma rounds_length (kws : list (Z * Z)) :
  forall st, length st = 8%nat -> length (fold_left SHA256.round kws st) = 8%nat.
Proof.
  induction kws as [|kw kws IH]; intros st H; [exact H|].
  cbn. apply IH, round_length, H.
Qed.

Lemma compress_length (h block : list Z) :
  length h = 8%nat -> length (SHA256.compress h block) = 8%nat.
Proof.
  intros H. unfold SHA256.compress.
  rewrite length_map, length_combine, rounds_length by exact H. lia.
Qed.

Lemma absorb_length (ws : list Z) :
  forall acc, length (fst acc) = 8%nat ->
              length (fst (fold_left SHA256.absorb ws acc)) = 8%nat.
Proof.
  induction ws as [|w ws IH]; intros acc H; [exact H|].
  cbn [fold_left]. apply IH. unfold SHA256.absorb.
  destruct (_ =? _)%nat; cbn [fst]; [apply compress_length|]; exact H.
Qed.

Lemma hexdigest_shape (msg : bytes) :
  length (SHA256.hexdigest msg) = 64%nat /\ Forall lower_hex (SHA256.hexdigest msg).
Proof.
  unfold SHA256.hexdigest.
  assert (Hlen : length (SHA256.digest msg) = 8%nat).
  { unfold SHA256.digest. apply absorb_length. reflexivity. }
  split.
  - generalize dependent (SHA256.digest msg). intros dg Hlen.
    do 9 (destruct dg as [|? dg]; try discriminate Hlen). reflexivity.
  - apply Forall_concat, Forall_map, Forall_forall. intros w _. apply hex_lower.
Qed.

End NormaliserMore.

(** X11. Stripping leaves no marker behind and never lengthens the
    text; a text without markers is left as it is, so stripping twice
    is stripping once. *)
Theorem strip_removes_markers (s : str) :
  Forall (fun c => c <> marker) (_strip_motd_color_codes s)
  /\ (length (_strip_motd_color_codes s) <= length s)%nat
  /\ (Forall (fun c => c <> marker) s -> _strip_motd_color_codes s = s)
  /\ _strip_motd_color_codes (_strip_motd_color_codes s) = _strip_motd_color_codes s.
Proof.
  destruct (strip_bounded (length s) s (le_n _)) as [Hall Hle].
  repeat split; [exact Hall|exact Hle|apply strip_clean|apply strip_clean, Hall].
Qed.

(** X12. The fingerprint of a well-formed status is 64 lower-case
    hexadecimal digits. *)
Theorem hash_state_digest (py : builtins) (s : dict) :
  well_formed s ->
  exists digest,
    _hash_state py s = Ok digest
    /\ length digest = 64%nat /\ Forall lower_hex digest.
Proof.
  intros Hwf. destruct (hash_state_defined py s Hwf) as (input & _ & Hhash).
  exists (SHA256.hexdigest input). split; [exact Hhash|]. apply hexdigest_shape.
Qed.

Lemma hash_state_digest_witness :
  exists digest,
    _hash_state example_builtins (offline_status (U "timed out")) = Ok digest
    /\ length digest = 64%nat /\ Forall lower_hex digest.
Proof.
  apply (hash_state_digest example_builtins (offline_status (U "timed out"))).
  split; intros v Hv; discriminate Hv.
Defined.

(** ** More on the monitor engine *)

Section MonitorMore.
Context (py : builtins).

(** What a poll that returned has done. *)
Lemma monitor_once_inv (w : world) (st : state) (srv : server) (st' : state)
    (evs : list event) :
  monitor_once py w st srv = Ok (st', evs) ->
  (st' = st /\ evs = [] /\ (srv_host srv = None \/ srv_host srv = Some []))
  \/ exists host now_hash,
       srv_host srv = Some host /\ host <> []
       /\ _hash_state py (polled_status py w srv host) = Ok now_hash
       /\ ((bl_hash <$> baselines st !! key_of srv host = Some now_hash
            /\ st' = st /\ evs = heartbeat st srv host)
           \/ (bl_hash <$> baselines st !! key_of srv host <> Some now_hash
               /\ st' = set_baseline (key_of srv host)
                          (Baseline now_hash (polled_status py w srv host)) st
               /\ exists title desc fields line,
                    evs = send_discord (discord w) (webhook_url st) title desc fields
                          ++ [ConsolePrint line; SaveState st'])).
Proof.
  unfold monitor_once.
  destruct (srv_host srv) as [[|c host']|] eqn:Hhost.
  - intros [= <- <-]. left. auto.
  - fold (polled_status py w srv (c :: host')).
    fold (display_name srv (c :: host')). fold (key_of srv (c :: host')).
    destruct (_hash_state py (polled_status py w srv (c :: host')))
      as [now_hash|] eqn:Hhash; [|discriminate].
    cbn [mbind result_bind]. intros Hrun. right.
    exists (c :: host'), now_hash. split; [reflexivity|]. split; [done|].
    split; [exact Hhash|].
    destruct (decide _) as [Hdiff|Hsame].
    + right. split; [exact Hdiff|].
      destruct (_format_fields _ _ _) as [fields|]; [|discriminate].
      cbn [mbind result_bind] in Hrun.
      destruct (change_line _ _ _ _ _) as [line|]; [|discriminate].
      cbn [mbind result_bind] in Hrun. injection Hrun as <- <-.
      split; [reflexivity|]. eauto.
    + left. injection Hrun as <- <-.
      split; [|auto]. destruct (decide (bl_hash <$> baselines st !! key_of srv (c :: host')
                                        = Some now_hash)); [done|]. now destruct Hsame.
  - intros [= <- <-]. left. auto.
Qed.

Lemma saves_send_discord (outcome : post_outcome) (url : option str) (title desc : str)
    (fields : list (str * str)) :
  saves (send_discord outcome url title desc fields) = []
  /\ (length (posts (send_discord outcome url title desc fields)) <= 1)%nat.
Proof.
  unfold send_discord. destruct url as [[|c url]|]; [cbn; split; [done|lia]| |cbn; split; [done|lia]].
  destruct outcome as [code text|e]; [destruct (300 <=? code)|]; cbn; split; (done || lia).
Qed.

Lemma set_baseline_differs (key : str) (bl : baseline) (st : state) :
  bl_hash <$> baselines st !! key <> Some (bl_hash bl) -> set_baseline key bl st <> st.
Proof.
  intros Hdiff Heq. apply Hdiff. rewrite <- Heq at 1.
  rewrite baselines_set, lookup_insert_eq. reflexivity.
Qed.

(** After a poll of a server with a host, the stored fingerprint is the
    one of the status the poll obtained. *)
Lemma poll_stores_hash (w : world) (st : state) (srv : server) (host : str)
    (st' : state) (evs : list event) (now_hash : str) :
  srv_host srv = Some host -> host <> [] ->
  monitor_once py w st srv = Ok (st', evs) ->
  _hash_state py (polled_status py w srv host) = Ok now_hash ->
  bl_hash <$> baselines st' !! key_of srv host = Some now_hash.
Proof.
  intros Hhost Hne Hrun Hhash.
  apply monitor_once_inv in Hrun
    as [(_ & _ & [Hnone|Hnone])|(host0 & h & Hhost0 & _ & Hh & Hcase)];
    try congruence.
  rewrite Hhost in Hhost0. injection Hhost0 as <-. rewrite Hhash in Hh.
  injection Hh as <-.
  destruct Hcase as [(Hsame & -> & _)|(_ & -> & _)]; [exact Hsame|].
  rewrite baselines_set, lookup_insert_eq. reflexivity.
Qed.

Lemma saves_app (a b : list event) : saves (a ++ b) = saves a ++ saves b.
Proof. apply omap_app. Qed.

Lemma posts_app (a b : list event) : posts (a ++ b) = posts a ++ posts b.
Proof. apply List.filter_app. Qed.

Lemma saves_heartbeat (st : state) (srv : server) (host : str) :
  saves (heartbeat st srv host) = [] /\ posts (heartbeat st srv host) = [].
Proof. unfold heartbeat. destruct (verbose_status st); split; reflexivity. Qed.

(** The saves and the posts of one poll. *)
Lemma poll_effects (w : world) (st : state) (srv : server) (st' : state)
    (evs : list event) :
  monitor_once py w st srv = Ok (st', evs) ->
  (st' = st /\ posts evs = [] /\ saves evs = [])
  \/ (st' <> st /\ saves evs = [st'] /\ (length (posts evs) <= 1)%nat).
Proof.
  intros Hrun.
  apply monitor_once_inv in Hrun
    as [(-> & -> & _)|(host & h & Hhost & Hne & Hh & Hcase)]; [left; auto|].
  destruct Hcase as [(_ & -> & ->)|(Hdiff & -> & title & desc & fields & line & ->)].
  - left. destruct (saves_heartbeat st srv host). auto.
  - right. split; [now apply set_baseline_differs|].
    rewrite saves_app, posts_app.
    destruct (saves_send_discord (discord w) (webhook_url st) title desc fields)
      as [-> Hposts].
    split; [reflexivity|]. cbn. rewrite app_nil_r. exact Hposts.
Qed.

End MonitorMore.

(** X13. Repeated failures notify once: after a poll that found the
    server offline, a poll that finds it offline again, with whatever
    error text, is Unchanged. *)
Theorem repeated_failure_is_silent (py : builtins) (w1 w2 : world) (st st1 : state)
    (srv : server) (host : str) (ev1 : list event) (e1 e2 : str) :
  srv_host srv = Some host -> host <> [] ->
  polled_status py w1 srv host = offline_status e1 ->
  polled_status py w2 srv host = offline_status e2 ->
  monitor_once py w1 st srv = Ok (st1, ev1) ->
  monitor_once py w2 st1 srv = Ok (st1, heartbeat st1 srv host).
Proof.
  intros Hhost Hne Hw1 Hw2 Hrun.
  destruct (status_hash_defined py (offline_status e2) (shape_offline e2))
    as [now_hash Hhash].
  apply (monitor_once_unchanged py w2 st1 srv host now_hash Hhost Hne).
  - rewrite Hw2. exact Hhash.
  - apply (poll_stores_hash py w1 st srv host st1 ev1 now_hash Hhost Hne Hrun).
    rewrite Hw1. rewrite <- Hhash. reflexivity.
Qed.

Lemma repeated_failure_is_silent_witness :
  exists st1 ev1,
    monitor_once example_builtins refusing_world example_state example_server
    = Ok (st1, ev1)
    /\ monitor_once example_builtins
         (World (fun _ _ _ => Raise (Exception "TimeoutError" (U "timed out")))
                (Response 204 []))
         st1 example_server
       = Ok (st1, heartbeat st1 example_server (U "mc.example.org")).
Proof.
  destruct (monitor_once example_builtins refusing_world example_state example_server)
    as [[st1 ev1]|e] eqn:Hrun.
  - exists st1, ev1. split; [reflexivity|].
    apply (repeated_failure_is_silent example_builtins refusing_world
             (World (fun _ _ _ => Raise (Exception "TimeoutError" (U "timed out")))
                    (Response 204 []))
             example_state st1 example_server (U "mc.example.org") ev1
             (U "[Errno 111] Connection refused") (U "timed out")).
    + reflexivity.
    + discriminate.
    + reflexivity.
    + reflexivity.
    + exact Hrun.
  - vm_compute in Hrun. discriminate Hrun.
Defined.

(** X14. A poll touches nothing but the baseline of the polled server:
    the webhook, the interval, the verbosity flag, the server list and
    the baselines under every other key are as before. *)
Theorem poll_frame (py : builtins) (w : world) (st st' : state) (srv : server)
    (evs : list event) :
  monitor_once py w st srv = Ok (st', evs) ->
  webhook_url st' = webhook_url st
  /\ interval_sec st' = interval_sec st
  /\ verbose_status st' = verbose_status st
  /\ servers st' = servers st
  /\ forall key,
       (forall host, srv_host srv = Some host -> key <> key_of srv host) ->
       baselines st' !! key = baselines st !! key.
Proof.
  intros Hrun.
  apply monitor_once_inv in Hrun
    as [(-> & _)|(host & h & Hhost & Hne & Hh & [(_ & -> & _)|(_ & -> & _)])];
    repeat split; try reflexivity.
  intros key Hkey. rewrite baselines_set. apply lookup_insert_ne.
  intros Heq. now apply (Hkey host Hhost).
Qed.

Lemma poll_frame_witness :
  exists st' evs,
    monitor_once example_builtins answering_world example_state example_server
    = Ok (st', evs)
    /\ servers st' = [example_server]
    /\ baselines st' !! U "other.example.org:25565" = None.
Proof.
  destruct (monitor_once example_builtins answering_world example_state example_server)
    as [[st' evs]|e] eqn:Hrun.
  - exists st', evs. split; [reflexivity|].
    destruct (poll_frame example_builtins answering_world example_state st'
                example_server evs Hrun) as (_ & _ & _ & Hservers & Hothers).
    split; [exact Hservers|]. rewrite Hothers; [reflexivity|].
    intros host [= <-]. discriminate.
  - vm_compute in Hrun. discriminate Hrun.
Defined.

(** X15. Stored fingerprints stay true: when every stored fingerprint
    is the fingerprint of the status stored with it, this is so after
    any sequence of polls. *)
Theorem stored_fingerprints_match (py : builtins) (polls : list (world * server)) :
  forall st st' evs,
    fingerprinted py st ->
    monitor_run py polls st = Ok (st', evs) ->
    fingerprinted py st'.
Proof.
  induction polls as [|[w srv] polls IH]; intros st st' evs Hst Hrun.
  - injection Hrun as <- _. exact Hst.
  - cbn [monitor_run] in Hrun.
    destruct (monitor_once py w st srv) as [[st1 ev1]|] eqn:Hone; [|discriminate].
    cbn [mbind result_bind] in Hrun.
    destruct (monitor_run py polls st1) as [[st2 ev2]|] eqn:Hrest; [|discriminate].
    injection Hrun as <- _. apply (IH st1 st2 ev2); [|exact Hrest].
    apply monitor_once_inv in Hone
      as [(-> & _)|(host & h & Hhost & Hne & Hh & [(_ & -> & _)|(_ & -> & _)])];
      try exact Hst.
    intros key bl. rewrite baselines_set, lookup_insert.
    destruct (decide _) as [_|_]; [|apply Hst]. intros [= <-]. exact Hh.
Qed.

Lemma stored_fingerprints_match_witness :
  exists st' evs,
    monitor_run example_builtins
      [(refusing_world, example_server); (answering_world, example_server)]
      example_state = Ok (st', evs)
    /\ fingerprinted example_builtins st'.
Proof.
  destruct (monitor_run example_builtins
              [(refusing_world, example_server); (answering_world, example_server)]
              example_state) as [[st' evs]|e] eqn:Hrun.
  - exists st', evs. split; [reflexivity|].
    apply (stored_fingerprints_match example_builtins
             [(refusing_world, example_server); (answering_world, example_server)]
             example_state st' evs); [|exact Hrun].
    intros key bl Hbl. discriminate Hbl.
  - vm_compute in Hrun. discriminate Hrun.
Defined.

(** X16. A poll that leaves the state as it was posts nothing and
    saves nothing; a poll that changes the state saves the new state,
    once, and posts at most once. *)
Theorem poll_saves_its_change (py : builtins) (w : world) (st st' : state)
    (srv : server) (evs : list event) :
  monitor_once py w st srv = Ok (st', evs) ->
  (st' = st /\ posts evs = [] /\ saves evs = [])
  \/ (st' <> st /\ saves evs = [st'] /\ (length (posts evs) <= 1)%nat).
Proof. apply poll_effects. Qed.

Lemma poll_saves_its_change_witness :
  exists st' evs,
    monitor_once example_builtins answering_world example_state example_server
    = Ok (st', evs)
    /\ saves evs = [st'] /\ length (posts evs) = 1%nat.
Proof.
  destruct (monitor_once example_builtins answering_world example_state example_server)
    as [[st' evs]|e] eqn:Hrun.
  - exists st', evs. split; [reflexivity|].
    destruct (poll_saves_its_change example_builtins answering_world example_state st'
                example_server evs Hrun) as [(_ & _ & Hsaves)|(_ & Hsaves & _)].
    + vm_compute in Hrun. injection Hrun as <- <-. discriminate Hsaves.
    + split; [exact Hsaves|]. vm_compute in Hrun. injection Hrun as _ <-. reflexivity.
  - vm_compute in Hrun. discriminate Hrun.
Defined.

(** X17. The state file follows the state in memory: after any sequence
    of polls, the document last saved is the state the polls ended with,
    when the file held the state they started from. *)
Theorem state_file_in_sync (py : builtins) (polls : list (world * server)) :
  forall st st' evs,
    monitor_run py polls st = Ok (st', evs) ->
    file_after st evs = st'.
Proof.
  induction polls as [|[w srv] polls IH]; intros st st' evs Hrun.
  - injection Hrun as <- <-. reflexivity.
  - cbn [monitor_run] in Hrun.
    destruct (monitor_once py w st srv) as [[st1 ev1]|] eqn:Hone; [|discriminate].
    cbn [mbind result_bind] in Hrun.
    destruct (monitor_run py polls st1) as [[st2 ev2]|] eqn:Hrest; [|discriminate].
    injection Hrun as <- <-. specialize (IH st1 st2 ev2 Hrest).
    unfold file_after in *. rewrite saves_app, last_app.
    destruct (last (saves ev2)) as [saved|]; [exact IH|]. cbn in IH. subst st2.
    destruct (poll_effects py w st srv st1 ev1 Hone) as [(-> & _ & ->)|(_ & -> & _)];
      reflexivity.
Qed.

Lemma state_file_in_sync_witness :
  exists st' evs,
    monitor_run example_builtins
      [(refusing_world, example_server); (answering_world, example_server)]
      example_state = Ok (st', evs)
    /\ file_after example_state evs = st'.
Proof.
  destruct (monitor_run example_builtins
              [(refusing_world, example_server); (answering_world, example_server)]
              example_state) as [[st' evs]|e] eqn:Hrun.
  - exists st', evs. split; [reflexivity|].
    apply (state_file_in_sync example_builtins
             [(refusing_world, example_server); (answering_world, example_server)]
             example_state st' evs Hrun).
  - vm_compute in Hrun. discriminate Hrun.
Defined.

(** ** The input helper *)

Section InputHelpers.
Context (py : builtins).

Lemma lstrip_trimmed (s : str) :
  (forall c, head s = Some c -> py_isspace c = false) -> lstrip s = s.
Proof.
  destruct s as [|c s]; [reflexivity|]. intros Hhd. cbn [lstrip].
  rewrite (Hhd c eq_refl). reflexivity.
Qed.

Lemma py_strip_trimmed (s : str) : trimmed s -> py_strip s = s.
Proof.
  intros [Hhd Hlast]. unfold py_strip. rewrite (lstrip_trimmed s Hhd).
  rewrite lstrip_trimmed; [apply rev_involutive|].
  intros c Hc. apply Hlast. rewrite <- (rev_involutive s).
  destruct (rev s) as [|c' t]; [discriminate|]. injection Hc as ->.
  cbn [rev]. apply last_snoc.
Qed.

Lemma count_char_app (c : Z) (a b : str) :
  count_char c (a ++ b) = (count_char c a + count_char c b)%nat.
Proof. unfold count_char. rewrite List.filter_app, length_app. reflexivity. Qed.

Lemma count_char_absent (c : Z) (s : str) :
  Forall (fun x => x <> c) s -> count_char c s = 0%nat.
Proof.
  unfold count_char. induction 1 as [|x s Hx _ IH]; [reflexivity|].
  cbn [List.filter]. destruct (Z.eqb_spec c x) as [->|_]; [done|exact IH].
Qed.

Lemma split_once_app (c : Z) (a b : str) :
  Forall (fun x => x <> c) a -> split_once c (a ++ c :: b) = (a, b).
Proof.
  induction 1 as [|x a Hx _ IH]; cbn [split_once app].
  - destruct (decide (c = c)); [reflexivity|done].
  - destruct (decide (x = c)); [done|]. rewrite IH. reflexivity.
Qed.

Lemma find_char_app (c : Z) (a b : str) :
  Forall (fun x => x <> c) a -> find_char c (a ++ c :: b) = Some (length a).
Proof.
  induction 1 as [|x a Hx _ IH]; cbn [find_char app length].
  - destruct (decide (c = c)); [reflexivity|done].
  - destruct (decide (x = c)); [done|]. rewrite IH. reflexivity.
Qed.

(** The characters [str] writes for an integer: a sign or a digit. *)
Lemma uint_digits (d : Decimal.uint) :
  Forall (fun c => 48 <= c <= 57) (U (NilEmpty.string_of_uint d)).
Proof.
  induction d; cbn [NilEmpty.string_of_uint U list_ascii_of_string map].
  all: try (apply List.Forall_cons; [vm_compute; split; discriminate|exact IHd]).
  constructor.
Qed.

Lemma str_of_Z_chars (z : Z) :
  str_of_Z z <> []
  /\ Forall (fun c => c = 45 \/ 48 <= c <= 57) (str_of_Z z).
Proof.
  assert (Hu : forall d, U (NilZero.string_of_uint d) <> []
                         /\ Forall (fun c => c = 45 \/ 48 <= c <= 57)
                                   (U (NilZero.string_of_uint d))).
  { intros d. split.
    - destruct d; discriminate.
    - eapply Forall_impl; [|intros c Hc; right; exact Hc].
      destruct d; try apply (uint_digits (_ d)).
      apply List.Forall_cons; [vm_compute; split; discriminate|constructor]. }
  unfold str_of_Z. destruct (Z.to_int z) as [d|d]; cbn [NilZero.string_of_int].
  - apply Hu.
  - split; [discriminate|].
    cbn [U list_ascii_of_string map]. apply List.Forall_cons; [left; reflexivity|].
    apply Hu.
Qed.

Lemma last_app_cons (a : str) (c : Z) (b : str) :
  last (a ++ c :: b) = last (c :: b).
Proof. rewrite last_app. destruct (last (c :: b)) eqn:Hl; [reflexivity|].
  apply last_None in Hl. discriminate. Qed.

End InputHelpers.

(** X18. The key of a server parses back to its host and port: for a
    host without a colon that starts neither with a bracket nor with
    white space, and a port that [int] reads back from its decimal
    text, [parse_host_port(_server_key(host, port))] is [(host, port)],
    whatever the default port. *)
Theorem parse_key_roundtrip (py : builtins) (host : str) (port default_port : Z) :
  Forall (fun c => c <> 58) host ->
  head host <> Some 91 ->
  (forall c, head host = Some c -> py_isspace c = false) ->
  int_of_str py (str_of_Z port) = Ok port ->
  parse_host_port py (Some (_server_key host port)) default_port = (host, port).
Proof.
  intros Hcolon Hbracket Hspace Hint.
  destruct (str_of_Z_chars port) as [Hne Hchars].
  unfold parse_host_port, _server_key. cbn [default from_option id].
  change (U ":" ++ str_of_Z port) with (58 :: str_of_Z port).
  rewrite py_strip_trimmed.
  - destruct (host ++ 58 :: str_of_Z port) as [|first tl] eqn:Hs.
    { destruct host; discriminate Hs. }
    rewrite <- Hs.
    destruct (decide (first = 91)) as [->|_].
    { destruct host as [|h host]; [discriminate Hs|].
      injection Hs as -> _. now destruct Hbracket. }
    rewrite count_char_app, (count_char_absent 58 host Hcolon).
    assert (Hcount : count_char 58 (58 :: str_of_Z port) = 1%nat).
    { unfold count_char. cbn [List.filter]. rewrite Z.eqb_refl. cbn [length]. f_equal.
      apply (count_char_absent 58).
      eapply Forall_impl; [exact Hchars|]. intros c Hc ->. lia. }
    rewrite Hcount. cbn [Nat.add].
    destruct (decide (1%nat = 1%nat)); [|done].
    rewrite (split_once_app 58 host _ Hcolon). unfold port_of. rewrite Hint.
    reflexivity.
  - split.
    + intros c Hc. destruct host as [|h host].
      * injection Hc as <-. reflexivity.
      * apply Hspace. exact Hc.
    + intros c. rewrite last_app_cons. intros Hc.
      assert (Hin : c ∈ str_of_Z port).
      { destruct (str_of_Z port) as [|d ds] eqn:Hd; [done|].
        change (58 :: d :: ds) with ([58] ++ d :: ds) in Hc.
        rewrite last_app_cons in Hc. apply last_Some_elem_of. exact Hc. }
      rewrite Forall_forall in Hchars. specialize (Hchars c Hin).
      unfold py_isspace.
      destruct Hchars as [->|Hdigit]; [reflexivity|].
      repeat match goal with
             | |- context [?a <=? ?b] => destruct (Z.leb_spec a b); try lia
             | |- context [?a =? ?b] => destruct (Z.eqb_spec a b); try lia
             end; reflexivity.
Qed.

Lemma parse_key_roundtrip_witness :
  parse_host_port decimal_builtins (Some (_server_key (U "mc.example.org") 25570)) 25565
  = (U "mc.example.org", 25570).
Proof.
  apply (parse_key_roundtrip decimal_builtins (U "mc.example.org") 25570 25565).
  - repeat (apply List.Forall_cons; [discriminate|]). constructor.
  - discriminate.
  - intros c [= <-]. reflexivity.
  - reflexivity.
Defined.

(** X19. The bracketed form: when the input, without the white space
    around it, is a bracket, a host without closing bracket, a closing
    bracket and a rest, the host is what stands between the brackets;
    the port is read from the rest after a colon, with the default port
    when [int] refuses it, and is the default port when the rest does
    not start with a colon, whatever it holds. *)
Theorem parse_bracketed (py : builtins) (s : option str) (host rest : str)
    (default_port : Z) :
  py_strip (default [] s) = U "[" ++ host ++ U "]" ++ rest ->
  Forall (fun c => c <> 93) host ->
  (forall p, rest = U ":" ++ p ->
             parse_host_port py s default_port
             = (host, match int_of_str py p with
                      | Ok port => port
                      | Raise _ => default_port
                      end))
  /\ (head rest <> Some 58 -> parse_host_port py s default_port = (host, default_port)).
Proof.
  intros Hs Hhost. unfold parse_host_port. rewrite Hs.
  change (U "[" ++ host ++ U "]" ++ rest) with (91 :: host ++ 93 :: rest).
  cbv beta iota zeta.
  destruct (decide (91 = 91)); [|done].
  change (91 :: host ++ 93 :: rest) with ((91 :: host) ++ 93 :: rest).
  rewrite find_char_app by (apply List.Forall_cons; [discriminate|exact Hhost]).
  cbn [length]. replace (S (length host) - 1)%nat with (length host) by lia.
  change ((91 :: host) ++ 93 :: rest) with (91 :: (host ++ 93 :: rest)).
  change (drop 1 (91 :: (host ++ 93 :: rest))) with (host ++ 93 :: rest).
  change (drop (S (S (length host))) (91 :: (host ++ 93 :: rest)))
    with (drop (S (length host)) (host ++ 93 :: rest)).
  rewrite take_app_length.
  replace (drop (S (length host)) (host ++ 93 :: rest)) with rest.
  2:{ change (host ++ 93 :: rest) with (host ++ [93] ++ rest).
      rewrite app_assoc. symmetry.
      replace (S (length host)) with (length (host ++ [93]))
        by (rewrite length_app; cbn; lia).
      apply drop_app_length. }
  split.
  - intros p ->. cbn [U list_ascii_of_string map app].
    change (Z.of_nat (nat_of_ascii ":")) with 58.
    destruct (decide (58 = 58)); [reflexivity|done].
  - intros Hhd. destruct rest as [|c p]; [reflexivity|].
    destruct (decide (c = 58)) as [->|_]; [now destruct Hhd|reflexivity].
Qed.

Lemma parse_bracketed_witness :
  parse_host_port decimal_builtins (Some (U " [2001:db8::1]:25570 ")) 25565
  = (U "2001:db8::1", 25570)
  /\ parse_host_port decimal_builtins (Some (U "[::1]25570")) 25565 = (U "::1", 25565).
Proof.
  split.
  - destruct (parse_bracketed decimal_builtins (Some (U " [2001:db8::1]:25570 "))
                (U "2001:db8::1") (U ":25570") 25565) as [Hport _].
    + reflexivity.
    + repeat (apply List.Forall_cons; [discriminate|]). constructor.
    + exact (Hport (U "25570") eq_refl).
  - destruct (parse_bracketed decimal_builtins (Some (U "[::1]25570"))
                (U "::1") (U "25570") 25565) as [_ Hrest].
    + reflexivity.
    + repeat (apply List.Forall_cons; [discriminate|]). constructor.
    + apply Hrest. discriminate.
Defined.

(** X20. Without brackets, only a single colon separates a port: an
    input that, without the white space around it, does not start with
    a bracket and holds no colon or more than one is taken whole as the
    host, with the default port; so is an input with an opening bracket
    that is never closed. *)
Theorem parse_whole_host (py : builtins) (s : option str) (text : str)
    (default_port : Z) :
  py_strip (default [] s) = text ->
  (head text <> Some 91 /\ count_char 58 text <> 1%nat)
  \/ (head text = Some 91 /\ Forall (fun c => c <> 93) text) ->
  parse_host_port py s default_port = (text, default_port).
Proof.
  intros Hs Hcase. unfold parse_host_port. rewrite Hs.
  destruct text as [|first tl]; [reflexivity|].
  destruct Hcase as [[Hhd Hcount]|[Hhd Hopen]].
  - destruct (decide (first = 91)) as [->|_]; [now destruct Hhd|].
    destruct (decide _); [done|reflexivity].
  - injection Hhd as ->. destruct (decide (91 = 91)); [|done].
    assert (Hnone : forall t, Forall (fun c => c <> 93) t -> find_char 93 t = None).
    { induction 1 as [|x t Hx _ IH]; [reflexivity|]. cbn [find_char].
      destruct (decide (x = 93)); [done|]. rewrite IH. reflexivity. }
    rewrite (Hnone _ Hopen). reflexivity.
Qed.

Lemma parse_whole_host_witness :
  parse_host_port decimal_builtins (Some (U "2001:db8::1:25570")) 25565
  = (U "2001:db8::1:25570", 25565)
  /\ parse_host_port decimal_builtins (Some (U "[::1:25570")) 25565
     = (U "[::1:25570", 25565).
Proof.
  split.
  - apply (parse_whole_host decimal_builtins (Some (U "2001:db8::1:25570"))
             (U "2001:db8::1:25570") 25565); [reflexivity|].
    left. split; [discriminate|]. vm_compute. discriminate.
  - apply (parse_whole_host decimal_builtins (Some (U "[::1:25570"))
             (U "[::1:25570") 25565); [reflexivity|].
    right. split; [reflexivity|].
    repeat (apply List.Forall_cons; [discriminate|]). constructor.
Defined.

(** ** Rounds of the monitor loop *)

Section Rounds.
Context (py : builtins).

(** A run leaves alone the baselines of the keys it does not poll. *)
Lemma run_frame (polls : list (world * server)) (key : str) :
  forall st st' evs,
    monitor_run py polls st = Ok (st', evs) ->
    key ∉ omap (fun p => polled_key (snd p)) polls ->
    baselines st' !! key = baselines st !! key.
Proof.
  induction polls as [|[w srv] polls IH]; intros st st' evs Hrun Hkey.
  - injection Hrun as <- _. reflexivity.
  - cbn [monitor_run] in Hrun.
    destruct (monitor_once py w st srv) as [[st1 ev1]|] eqn:Hone; [|discriminate].
    cbn [mbind result_bind] in Hrun.
    destruct (monitor_run py polls st1) as [[st2 ev2]|] eqn:Hrest; [|discriminate].
    injection Hrun as <- _. cbn [omap list_omap snd] in Hkey.
    rewrite (IH st1 st2 ev2 Hrest).
    + apply monitor_once_inv in Hone
        as [(-> & _)|(host & h & Hhost & Hne & _ & [(_ & -> & _)|(_ & -> & _)])];
        try reflexivity.
      rewrite baselines_set. apply lookup_insert_ne. intros <-. apply Hkey.
      unfold polled_key at 1. rewrite Hhost. destruct host; [done|]. left.
    + intros Hin. apply Hkey. destruct (polled_key srv); [right|]; exact Hin.
Qed.

Lemma round_keys (w : world) (srvs : list server) :
  omap (fun p => polled_key (snd p)) (round w srvs) = omap polled_key srvs.
Proof.
  induction srvs as [|srv srvs IH]; [reflexivity|].
  cbn [round map omap list_omap snd]. fold (round w srvs).
  change (list_omap _ _ ?f ?l) with (omap f l). rewrite IH. reflexivity.
Qed.

(** After a round over servers with different keys, every server that
    has a host is stored under the fingerprint of what it answered. *)
Lemma round_stores (w : world) (srvs : list server) :
  forall st st' evs,
    NoDup (omap polled_key srvs) ->
    monitor_run py (round w srvs) st = Ok (st', evs) ->
    forall srv host,
      srv ∈ srvs -> srv_host srv = Some host -> host <> [] ->
      exists h, _hash_state py (polled_status py w srv host) = Ok h
                /\ bl_hash <$> baselines st' !! key_of srv host = Some h.
Proof.
  induction srvs as [|srv0 srvs IH]; intros st st' evs Hdup Hrun srv host Hin Hhost Hne.
  - now apply elem_of_nil in Hin.
  - cbn [round map monitor_run] in Hrun. fold (round w srvs) in Hrun.
    destruct (monitor_once py w st srv0) as [[st1 ev1]|] eqn:Hone; [|discriminate].
    cbn [mbind result_bind] in Hrun.
    destruct (monitor_run py (round w srvs) st1) as [[st2 ev2]|] eqn:Hrest;
      [|discriminate].
    injection Hrun as <- _. cbn [omap list_omap] in Hdup.
    apply elem_of_cons in Hin as [->|Htail].
    2:{ apply (IH st1 st2 ev2); try assumption.
        destruct (polled_key srv0); [now apply NoDup_cons in Hdup|exact Hdup]. }
    + assert (Hkey : polled_key srv0 = Some (key_of srv0 host)).
      { unfold polled_key. rewrite Hhost. destruct host; [done|reflexivity]. }
      rewrite Hkey in Hdup. apply NoDup_cons in Hdup as [Hfresh _].
      pose proof Hone as Hinv.
      apply monitor_once_inv in Hinv
        as [(_ & _ & [Hnone|Hnone])|(host0 & h & Hhost0 & _ & Hh & _)];
        try congruence.
      rewrite Hhost in Hhost0. injection Hhost0 as <-.
      exists h. split; [exact Hh|].
      rewrite (run_frame (round w srvs) (key_of srv0 host) st1 st2 ev2 Hrest).
      * apply (poll_stores_hash py w st srv0 host st1 ev1 h Hhost Hne Hone Hh).
      * rewrite round_keys. exact Hfresh.
Qed.

(** A round over servers that are all stored under the fingerprint of
    what they answer changes nothing. *)
Lemma round_unchanged (w : world) (st : state) (srvs : list server) :
  (forall srv host,
     srv ∈ srvs -> srv_host srv = Some host -> host <> [] ->
     exists h, _hash_state py (polled_status py w srv host) = Ok h
               /\ bl_hash <$> baselines st !! key_of srv host = Some h) ->
  exists evs, monitor_run py (round w srvs) st = Ok (st, evs)
              /\ posts evs = [] /\ saves evs = [].
Proof.
  induction srvs as [|srv srvs IH]; intros Hstored.
  - exists []. auto.
  - destruct IH as (evs & Hrun & Hposts & Hsaves).
    { intros srv' host Hin. apply Hstored. now right. }
    cbn [round map monitor_run]. fold (round w srvs).
    destruct (srv_host srv) as [[|c host]|] eqn:Hhost.
    + rewrite monitor_once_no_host by auto. cbn [mbind result_bind].
      rewrite Hrun. exists evs. auto.
    + destruct (Hstored srv (c :: host)) as (h & Hh & Hbl); [left|exact Hhost|done|].
      rewrite (monitor_once_unchanged py w st srv (c :: host) h Hhost ltac:(done) Hh Hbl).
      cbn [mbind result_bind]. rewrite Hrun. exists (heartbeat st srv (c :: host) ++ evs).
      split; [reflexivity|]. rewrite posts_app, saves_app, Hposts, Hsaves.
      destruct (saves_heartbeat st srv (c :: host)) as [-> ->]. auto.
    + rewrite monitor_once_no_host by auto. cbn [mbind result_bind].
      rewrite Hrun. exists evs. auto.
Qed.

End Rounds.

(** X21. A second round is silent: when the listed servers have
    different keys and answer a second round of polls as they answered
    the first, the second round leaves the state as the first one left
    it, posts nothing and saves nothing. *)
Theorem second_round_silent (py : builtins) (w : world) (st st1 : state)
    (ev1 : list event) :
  NoDup (omap polled_key (servers st)) ->
  monitor_run py (round w (servers st)) st = Ok (st1, ev1) ->
  exists ev2,
    monitor_run py (round w (servers st1)) st1 = Ok (st1, ev2)
    /\ posts ev2 = [] /\ saves ev2 = [].
Proof.
  intros Hdup Hrun.
  assert (Hservers : forall polls s s' evs,
             monitor_run py polls s = Ok (s', evs) -> servers s' = servers s).
  { induction polls as [|[w0 srv] polls IH]; intros s s' evs H.
    - injection H as <- _. reflexivity.
    - cbn [monitor_run] in H.
      destruct (monitor_once py w0 s srv) as [[s1 e1]|] eqn:Hone; [|discriminate].
      cbn [mbind result_bind] in H.
      destruct (monitor_run py polls s1) as [[s2 e2]|] eqn:Hrest; [|discriminate].
      injection H as <- _. rewrite (IH s1 s2 e2 Hrest).
      apply monitor_once_inv in Hone
        as [(-> & _)|(host & h & _ & _ & _ & [(_ & -> & _)|(_ & -> & _)])];
        reflexivity. }
  rewrite (Hservers _ _ _ _ Hrun).
  apply round_unchanged. intros srv host.
  apply (round_stores py w (servers st) st st1 ev1 Hdup Hrun).
Qed.

Lemma second_round_silent_witness :
  exists st1 ev1 ev2,
    monitor_run example_builtins (round answering_world (servers example_state))
      example_state = Ok (st1, ev1)
    /\ monitor_run example_builtins (round answering_world (servers st1)) st1
       = Ok (st1, ev2)
    /\ posts ev2 = [] /\ saves ev2 = [].
Proof.
  destruct (monitor_run example_builtins
              (round answering_world (servers example_state)) example_state)
    as [[st1 ev1]|e] eqn:Hrun.
  - destruct (second_round_silent example_builtins answering_world example_state
                st1 ev1) as (ev2 & Hsecond).
    + apply NoDup_cons. split; [apply not_elem_of_nil|apply NoDup_nil_2].
    + exact Hrun.
    + exists st1, ev1, ev2. split; [reflexivity|exact Hsecond].
  - vm_compute in Hrun. discriminate Hrun.
Defined.

(** ** The menu pages *)

Section MenuProperties.
Context (py : builtins).

Lemma py_strip_idem (s : str) : py_strip (py_strip s) = py_strip s.
Proof.
  destruct (py_strip_spec s) as (l & r & _ & _ & _ & Hhd & Hlast).
  apply py_strip_trimmed. split; assumption.
Qed.

Lemma parse_stripped (s : str) (default_port : Z) :
  parse_host_port py (Some (py_strip s)) default_port
  = parse_host_port py (Some s) default_port.
Proof.
  unfold parse_host_port. cbn [default from_option id]. rewrite py_strip_idem.
  reflexivity.
Qed.


Lemma server_rows_raise (srvs : list server) :
  Exists (fun s => srv_host s = None) srvs ->
  forall i, server_rows i srvs = Raise (Exception "KeyError" (U "'host'")).
Proof.
  induction 1 as [s srvs Hs|s srvs _ IH]; intros i; cbn [server_rows]; unfold server_row.
  - rewrite Hs. reflexivity.
  - destruct (srv_host s); [|reflexivity]. cbn [mbind result_bind]. rewrite IH.
    reflexivity.
Qed.



End MenuProperties.

Section MenuProperties2.
Context (py : builtins).

(** The form [host:port] with a single colon. *)
Lemma parse_single_colon (s : option str) (host p : str) (default_port : Z) :
  py_strip (default [] s) = host ++ U ":" ++ p ->
  head host <> Some 91 ->
  Forall (fun c => c <> 58) host -> Forall (fun c => c <> 58) p ->
  parse_host_port py s default_port = (host, port_of py p default_port).
Proof.
  intros Hs Hbracket Hhost Hp. unfold parse_host_port. rewrite Hs.
  change (U ":" ++ p) with (58 :: p).
  destruct (host ++ 58 :: p) as [|first tl] eqn:Htext.
  { destruct host; discriminate Htext. }
  rewrite <- Htext.
  destruct (decide (first = 91)) as [->|_].
  { destruct host as [|h host]; [discriminate Htext|].
    injection Htext as -> _. now destruct Hbracket. }
  rewrite count_char_app, (count_char_absent 58 host Hhost).
  change (58 :: p) with ([58] ++ p).
  rewrite count_char_app, (count_char_absent 58 p Hp).
  change (count_char 58 [58]) with 1%nat. cbn [Nat.add].
  destruct (decide (1%nat = 1%nat)); [|done].
  change ([58] ++ p) with (58 :: p).
  rewrite (split_once_app 58 host p Hhost). reflexivity.
Qed.

(** With a port that [struct.pack] refuses the query fails, whatever
    the network does. *)
Lemma unpackable_port_offline (net : network) (host : str) (port protocol : Z)
    (timeout : Q) :
  port < 0 \/ 65535 < port ->
  exists error, query_status py net host port protocol timeout = offline_status error.
Proof.
  intros Hport. unfold query_status, query_status_try.
  destruct (net host port timeout) as [sock|e]; cbn [mbind result_bind].
  2:{ exists (exn_str e). reflexivity. }
  assert (Hfail : exists e, fst (status_exchange py host port protocol sock) = Raise e).
  { unfold status_exchange.
    assert (Hpacket : exists e, forall k : bytes -> bytes -> result bytes,
               (h ← _pack_mc_string host; p ← struct_pack_H port; k h p) = Raise e).
    { unfold _pack_mc_string, struct_pack_H.
      destruct (utf8_encode host) as [h|e]; cbn [mbind result_bind]; [|eauto].
      destruct (Z.leb_spec 0 port), (Z.leb_spec port 65535); cbn; eauto; lia. }
    destruct Hpacket as [e He]. exists e.
    erewrite io_bind_raise; [reflexivity|]. unfold lift. f_equal. apply He. }
  destruct Hfail as [e ->]. exists (exn_str e). reflexivity.
Qed.

Lemma baselines_forget (key : str) (st : state) :
  baselines (forget key st) = delete key (baselines st).
Proof.
  unfold baselines, forget. cbn [st_last]. destruct (st_last st); cbn.
  - reflexivity.
  - symmetry. apply delete_empty.
Qed.

End MenuProperties2.

(** X22. The add page stores a server exactly when the host it parses
    from the answer is not empty: then the new entry, with that host
    and the parsed port, goes to the end of the list, the rest of the
    state stays, and the new state is saved once; otherwise nothing
    changes and nothing is saved. *)
Theorem add_server_appends (py : builtins) (st : state)
    (host_typed name_typed proto_typed : str) :
  let parsed := parse_host_port py (Some host_typed) 25565 in
  let done := add_server_flow py st host_typed name_typed proto_typed in
  (fst parsed = [] -> fst done = st /\ ui_saves (snd done) = [])
  /\ (fst parsed <> [] ->
      exists name protocol,
        fst done = set_servers
                     (servers st ++ [Server (Some (fst parsed)) (Some (snd parsed))
                                            name (Some protocol)]) st
        /\ ui_saves (snd done) = [fst done]).
Proof.
  cbv zeta. unfold add_server_flow. rewrite parse_stripped.
  destruct (parse_host_port py (Some host_typed) 25565) as [[|c host] port];
    cbn [fst snd]; split.
  - intros _. split; reflexivity.
  - intros Hne. now destruct Hne.
  - intros Hnil. discriminate Hnil.
  - intros _. eexists _, _. split; reflexivity.
Qed.

Lemma add_server_appends_witness :
  fst (add_server_flow decimal_builtins example_state (U "  ") [] []) = example_state
  /\ exists name protocol,
       fst (add_server_flow decimal_builtins example_state (U "play.example.org:25570")
              (U "Play") [])
       = set_servers (servers example_state
                      ++ [Server (Some (U "play.example.org")) (Some 25570) name
                                 (Some protocol)]) example_state.
Proof.
  split.
  - apply (add_server_appends decimal_builtins example_state (U "  ") [] []).
    reflexivity.
  - destruct (add_server_appends decimal_builtins example_state
                (U "play.example.org:25570") (U "Play") []) as [_ Hadd].
    destruct Hadd as (name & protocol & Hst & _); [discriminate|].
    exists name, protocol. exact Hst.
Defined.

(** X23. The add page does not check the range of the port: an answer
    [host:port] whose port [int] reads as a number outside [0, 65535]
    is stored with that port, and every poll of the stored server then
    finds it offline, whatever the network does. *)
Theorem added_port_unchecked (py : builtins) (st : state)
    (host_typed name_typed proto_typed host p : str) (v : Z) :
  py_strip host_typed = host ++ U ":" ++ p ->
  host <> [] -> head host <> Some 91 ->
  Forall (fun c => c <> 58) host -> Forall (fun c => c <> 58) p ->
  int_of_str py p = Ok v ->
  v < 0 \/ 65535 < v ->
  exists srv,
    servers (fst (add_server_flow py st host_typed name_typed proto_typed))
    = servers st ++ [srv]
    /\ srv_host srv = Some host /\ srv_port srv = Some v
    /\ forall w, exists error, polled_status py w srv host = offline_status error.
Proof.
  intros Htyped Hne Hbracket Hhost Hp Hint Hrange.
  unfold add_server_flow.
  rewrite (parse_single_colon py (Some (py_strip host_typed)) host p 25565);
    try assumption.
  2:{ cbn [default from_option id]. rewrite py_strip_idem. exact Htyped. }
  unfold port_of. rewrite Hint. destruct host as [|c host]; [done|].
  eexists. cbn [fst servers set_servers]. split; [reflexivity|].
  cbn [srv_host srv_port]. split; [reflexivity|]. split; [reflexivity|].
  intros w. unfold polled_status. cbn [srv_port srv_protocol default from_option id].
  apply unpackable_port_offline. exact Hrange.
Qed.

Lemma added_port_unchecked_witness :
  exists srv,
    servers (fst (add_server_flow decimal_builtins example_state
                    (U "play.example.org:70000") [] []))
    = servers example_state ++ [srv]
    /\ srv_host srv = Some (U "play.example.org") /\ srv_port srv = Some 70000
    /\ forall w, exists error,
         polled_status decimal_builtins w srv (U "play.example.org")
         = offline_status error.
Proof.
  apply (added_port_unchecked decimal_builtins example_state
           (U "play.example.org:70000") [] [] (U "play.example.org") (U "70000") 70000).
  - reflexivity.
  - discriminate.
  - discriminate.
  - repeat (apply List.Forall_cons; [discriminate|]). constructor.
  - repeat (apply List.Forall_cons; [discriminate|]). constructor.
  - reflexivity.
  - right. lia.
Defined.

Section MenuProperties3.
Context (py : builtins).


End MenuProperties3.





(** X26. An entry without a host is skipped by the poll but breaks the
    pages: with such an entry in the list, the list page, the remove
    page and the edit page raise [KeyError], whatever is typed, while
    a poll of the entry does nothing. *)
Theorem hostless_entry (py : builtins) (isdigit : str -> bool) (st : state)
    (srv : server) :
  srv ∈ servers st -> srv_host srv = None ->
  list_servers st = Raise (Exception "KeyError" (U "'host'"))
  /\ (forall typed,
        remove_server_flow py st typed = Raise (Exception "KeyError" (U "'host'")))
  /\ (forall a b c d,
        edit_server_flow py isdigit st a b c d
        = Raise (Exception "KeyError" (U "'host'")))
  /\ (forall w, monitor_once py w st srv = Ok (st, [])).
Proof.
  intros Hin Hhost.
  assert (Hlist : list_servers st = Raise (Exception "KeyError" (U "'host'"))).
  { unfold list_servers. destruct (servers st) as [|s srvs] eqn:Hservers.
    - now apply elem_of_nil in Hin.
    - rewrite server_rows_raise; [reflexivity|].
      apply Exists_exists. exists srv. split; [exact Hin|exact Hhost]. }
  split; [exact Hlist|].
  assert (Hne : servers st <> []).
  { intros Hnil. rewrite Hnil in Hin. now apply elem_of_nil in Hin. }
  split; [|split].
  - intros typed. unfold remove_server_flow. rewrite Hlist.
    destruct (servers st); [done|reflexivity].
  - intros a b c d. unfold edit_server_flow. rewrite Hlist.
    destruct (servers st); [done|reflexivity].
  - intros w. apply monitor_once_no_host. left. exact Hhost.
Qed.

Lemma hostless_entry_witness :
  list_servers (set_servers [Server None None None None] example_state)
  = Raise (Exception "KeyError" (U "'host'"))
  /\ monitor_once example_builtins answering_world
       (set_servers [Server None None None None] example_state)
       (Server None None None None)
     = Ok (set_servers [Server None None None None] example_state, []).
Proof.
  destruct (hostless_entry example_builtins (fun _ => true)
              (set_servers [Server None None None None] example_state)
              (Server None None None None)) as (Hlist & _ & _ & Hpoll).
  - left.
  - reflexivity.
  - split; [exact Hlist|apply Hpoll].
Defined.

Section MenuProperties4.
Context (py : builtins) (isdigit : str -> bool).

(** The edit page leaves the settings and the baselines alone. *)
Lemma edit_frame (st st' : state) (a b c d : str) (shown : list ui) :
  edit_server_flow py isdigit st a b c d = Ok (st', shown) ->
  webhook_url st' = webhook_url st /\ interval_sec st' = interval_sec st
  /\ verbose_status st' = verbose_status st /\ st_last st' = st_last st.
Proof.
  unfold edit_server_flow. destruct (servers st) as [|s srvs].
  { intros [= <- _]. auto. }
  destruct (list_servers st) as [listed|]; [|discriminate]. cbn [mbind result_bind].
  destruct (negb _). { intros [= <- _]. auto. }
  destruct (int_of_str py (py_strip a)) as [i|]; [|discriminate].
  cbn [mbind result_bind]. destruct (decide _) as [_|_].
  2:{ intros [= <- _]. auto. }
  destruct ((s :: srvs) !! Z.to_nat i) as [srv|]; [|discriminate].
  cbn [mbind result_bind]. destruct (srv_host srv) as [host|]; [|discriminate].
  cbn [mbind result_bind]. intros [= <- _]. auto.
Qed.


Lemma fingerprinted_last (st st' : state) :
  st_last st' = st_last st -> fingerprinted py st -> fingerprinted py st'.
Proof. unfold fingerprinted, baselines. now intros ->. Qed.

Lemma step_keeps (st st' : state) :
  step py isdigit st st' ->
  1 <= interval_sec st /\ fingerprinted py st ->
  1 <= interval_sec st' /\ fingerprinted py st'.
Proof.
  intros Hstep [Hint Hfp]. destruct Hstep as
    [st a b c|st a b c d st' shown Hrun|st a st' shown Hrun|st a|st a|st
    |st w srv st' evs _ Hrun].
  - unfold add_server_flow.
    destruct (parse_host_port py (Some (py_strip a)) 25565) as [[|h host] port];
      cbn [fst]; auto.
  - apply edit_frame in Hrun as (_ & -> & _ & Hlast). split; [exact Hint|].
    now apply (fingerprinted_last st).
  - unfold remove_server_flow in Hrun. destruct (servers st) as [|s srvs].
    { injection Hrun as <- _. auto. }
    destruct (list_servers st); [|discriminate]. cbn [mbind result_bind] in Hrun.
    destruct (int_of_str py (py_strip a)) as [i|].
    2:{ injection Hrun as <- _. auto. }
    destruct (decide _).
    2:{ injection Hrun as <- _. auto. }
    destruct ((s :: srvs) !! Z.to_nat i) as [rem|].
    2:{ injection Hrun as <- _. auto. }
    injection Hrun as <- _. split; [exact Hint|].
    intros key bl. rewrite baselines_forget. intros Hbl.
    apply lookup_delete_Some in Hbl as [_ Hbl]. apply (Hfp key bl Hbl).
  - unfold set_webhook_flow. destruct (py_strip a); cbn [fst]; auto.
  - unfold set_interval_flow. destruct (py_strip a) as [|a0 atl]; cbn [fst]; auto.
    destruct (int_of_str py (a0 :: atl)) as [v|]; cbn [fst]; auto.
    destruct (decide (v < 1)); cbn [fst]; auto. split; [cbn; lia|exact Hfp].
  - cbn [toggle_verbose_flow fst]. auto.
  - apply monitor_once_inv in Hrun
      as [(-> & _)|(host & h & Hhost & Hne & Hh & [(_ & -> & _)|(_ & -> & _)])];
      auto.
    split; [exact Hint|]. intros key bl. rewrite baselines_set, lookup_insert.
    destruct (decide _) as [_|_]; [|apply Hfp]. intros [= <-]. exact Hh.
Qed.

End MenuProperties4.

(** X27. Two invariants of the program: whatever menu pages and polls
    of listed servers follow one another, an interval of at least one
    second stays one, and stored fingerprints that are those of the
    statuses stored with them stay so. *)
Theorem program_invariants (py : builtins) (isdigit : str -> bool) (st st' : state) :
  rtc (step py isdigit) st st' ->
  1 <= interval_sec st -> fingerprinted py st ->
  1 <= interval_sec st' /\ fingerprinted py st'.
Proof.
  intros Hsteps Hint Hfp. assert (Hinv := conj Hint Hfp). clear Hint Hfp.
  induction Hsteps as [st|st st1 st' Hstep _ IH]; [exact Hinv|].
  apply IH. now apply (step_keeps py isdigit st st1).
Qed.

Lemma program_invariants_witness :
  1 <= interval_sec (fst (set_interval_flow decimal_builtins
                            (fst (toggle_verbose_flow example_state)) (U "0")))
  /\ fingerprinted decimal_builtins
       (fst (set_interval_flow decimal_builtins
               (fst (toggle_verbose_flow example_state)) (U "0"))).
Proof.
  apply (program_invariants decimal_builtins (fun _ => true) example_state).
  - eapply rtc_l; [apply step_toggle|]. apply rtc_once. apply step_interval.
  - cbn. lia.
  - intros key bl Hbl. discriminate Hbl.
Defined.





(** X30. A notification that fails is lost: when the webhook is set and
    the post raises during a poll that changes the state, the failure
    is logged, the new baseline is stored and saved all the same, and a
    later poll that obtains the same status is Unchanged, so nothing is
    posted again. *)
Theorem failed_post_is_not_retried (py : builtins) (w1 w2 : world) (st st1 : state)
    (srv : server) (host url : str) (ev1 : list event) (e : exn) :
  srv_host srv = Some host -> host <> [] ->
  webhook_url st = Some url -> url <> [] ->
  discord w1 = PostRaises e ->
  monitor_once py w1 st srv = Ok (st1, ev1) -> st1 <> st ->
  polled_status py w2 srv host = polled_status py w1 srv host ->
  ConsoleLog (U "[yellow]Discord send failed: " ++ exn_str e) ∈ ev1
  /\ saves ev1 = [st1]
  /\ monitor_once py w2 st1 srv = Ok (st1, heartbeat st1 srv host).
Proof.
  intros Hhost Hne Hurl Hset Hpost Hrun Hchanged Hsame.
  pose proof Hrun as Hinv.
  apply monitor_once_inv in Hinv
    as [(-> & _)|(host0 & h & Hhost0 & _ & Hh & Hcase)]; [done|].
  rewrite Hhost in Hhost0. injection Hhost0 as <-.
  destruct Hcase as [(_ & -> & _)|(_ & Hst1 & title & desc & fields & line & ->)];
    [done|].
  rewrite Hurl, Hpost. unfold send_discord. destruct url as [|c url]; [done|].
  split; [set_solver|]. split; [reflexivity|].
  apply (monitor_once_unchanged py w2 st1 srv host h Hhost Hne).
  - rewrite Hsame. exact Hh.
  - rewrite Hst1, baselines_set, lookup_insert_eq. reflexivity.
Qed.

Lemma failed_post_is_not_retried_witness :
  exists st1 ev1,
    monitor_once example_builtins
      (World (net answering_world) (PostRaises (Exception "ConnectionError" (U "refused"))))
      example_state example_server = Ok (st1, ev1)
    /\ ConsoleLog (U "[yellow]Discord send failed: refused") ∈ ev1
    /\ saves ev1 = [st1]
    /\ monitor_once example_builtins answering_world st1 example_server
       = Ok (st1, heartbeat st1 example_server (U "mc.example.org")).
Proof.
  destruct (monitor_once example_builtins
              (World (net answering_world)
                     (PostRaises (Exception "ConnectionError" (U "refused"))))
              example_state example_server) as [[st1 ev1]|e] eqn:Hrun.
  - exists st1, ev1. split; [reflexivity|].
    apply (failed_post_is_not_retried example_builtins
             (World (net answering_world)
                    (PostRaises (Exception "ConnectionError" (U "refused"))))
             answering_world example_state st1 example_server (U "mc.example.org")
             (U "https://discord.example/api/webhooks/1") ev1
             (Exception "ConnectionError" (U "refused"))).
    + reflexivity.
    + discriminate.
    + reflexivity.
    + discriminate.
    + reflexivity.
    + exact Hrun.
    + intros Heq. rewrite Heq in Hrun. vm_compute in Hrun.
      injection Hrun as Hlast _. discriminate Hlast.
    + reflexivity.
  - vm_compute in Hrun. discriminate Hrun.
Defined.
